(** * Nirabhi content analyzer: signal fusion and classification

    A shallow embedding of [backend/models/content_analyzer.py] (class
    [ContentAnalyzer]) and of the response schema of
    [backend/models/schemas.py], together with the properties of the
    fusion / classification engine.

    Modelling conventions.
    - Python [float] values are idealised as rationals ([Q]); every
      literal of the source ([0.8], [0.85], ...) is the same decimal
      here and comparisons are exact. Rounding and NaN are not
      modelled.
    - [Dict[str, float]] and [Dict[str, bool]] are finite maps with
      string keys ([gmap string Q], [gmap string bool]); [d.get(k, v)]
      is a lookup with a default.
    - Text is a [string] of characters with code points below 256;
      whitespace, word characters and case follow Python on that
      range.
    - [analyze_text] is modelled for an analyzer on which
      [initialize] has run; the clock readings of a call are an
      explicit argument, and a raised exception is an [Error]. *)

From Stdlib Require Import QArith Qabs Qminmax Lqa Ascii String List Bool.
From stdpp Require Import gmap strings list fin_maps pretty.

Open Scope Q_scope.

(** ** Python built-ins used by the analyzer *)
Module Py.

(** [x < y] on floats. *)
Definition ltb (x y : Q) : bool := negb (Qle_bool y x).

(** [x >= y] on floats. *)
Definition geb (x y : Q) : bool := Qle_bool y x.

(** [max(a, b)]: the first argument unless the second is greater. *)
Definition max (a b : Q) : Q := if ltb a b then b else a.

(** [min(a, b)]: the first argument unless the second is smaller. *)
Definition min (a b : Q) : Q := if ltb b a then b else a.

(** [abs(x)]. *)
Definition abs (x : Q) : Q := Qabs x.

(** An [int] used in float arithmetic. *)
Definition of_int (n : nat) : Q := inject_Z (Z.of_nat n).

(** [d.get(k, dflt)]. *)
Definition get {V : Type} (d : gmap string V) (k : string) (dflt : V) : V :=
  default dflt (d !! k).

(** Truth value of [d.get(k)] for a dict of booleans: a missing key
    gives [None], which is falsy. *)
Definition get_truthy (d : gmap string bool) (k : string) : bool :=
  default false (d !! k).

End Py.

(** ** Enumerations of [schemas.py] *)

Inductive ToxicityCategory : Set :=
| HATE_SPEECH
| CYBERBULLYING
| HARASSMENT
| THREAT
| SPAM
| MISINFORMATION
| INAPPROPRIATE
| SAFE.

Inductive SeverityLevel : Set :=
| LOW
| MEDIUM
| HIGH
| CRITICAL.

Definition ToxicityCategory_eqb (a b : ToxicityCategory) : bool :=
  match a, b with
  | HATE_SPEECH, HATE_SPEECH | CYBERBULLYING, CYBERBULLYING
  | HARASSMENT, HARASSMENT | THREAT, THREAT | SPAM, SPAM
  | MISINFORMATION, MISINFORMATION | INAPPROPRIATE, INAPPROPRIATE
  | SAFE, SAFE => true
  | _, _ => false
  end.

(** ** Python [str] methods used by the analyzer *)
Module Str.

Definition code (c : ascii) : nat := nat_of_ascii c.

Definition in_range (lo hi : nat) (c : ascii) : bool :=
  (lo <=? code c)%nat && (code c <=? hi)%nat.

Definition is_upper : ascii -> bool := in_range 65 90.
Definition is_lower : ascii -> bool := in_range 97 122.
Definition is_digit : ascii -> bool := in_range 48 57.

(** [str.isspace], which is also the class [\s] and what [strip]
    removes: TAB, LF, VT, FF, CR, FS, GS, RS, US, SP, and below 256
    also NEL (133) and NBSP (160). *)
Definition is_space (c : ascii) : bool :=
  in_range 9 13 c || in_range 28 32 c
  || (code c =? 133)%nat || (code c =? 160)%nat.

(** The upper-case and lower-case letters between 128 and 255 whose
    other case is in that range too (192-222 and 224-254, without
    the signs 215 and 247). *)
Definition is_upper_high (c : ascii) : bool :=
  in_range 192 214 c || in_range 216 222 c.

Definition is_lower_high (c : ascii) : bool :=
  in_range 224 246 c || in_range 248 254 c.

Definition lower_char (c : ascii) : ascii :=
  if is_upper c || is_upper_high c then ascii_of_nat (code c + 32) else c.

Definition upper_char (c : ascii) : ascii :=
  if is_lower c || is_lower_high c then ascii_of_nat (code c - 32) else c.

(** [s.lower()]. *)
Fixpoint lower (s : string) : string :=
  match s with
  | EmptyString => EmptyString
  | String c s' => String (lower_char c) (lower s')
  end.

Fixpoint lstrip (s : string) : string :=
  match s with
  | EmptyString => EmptyString
  | String c s' => if is_space c then lstrip s' else s
  end.

Fixpoint rstrip (s : string) : string :=
  match s with
  | EmptyString => EmptyString
  | String c s' =>
      match rstrip s' with
      | EmptyString => if is_space c then EmptyString else String c EmptyString
      | r => String c r
      end
  end.

(** [s.strip()]. *)
Definition strip (s : string) : string := rstrip (lstrip s).

Fixpoint startswith (pre s : string) : bool :=
  match pre, s with
  | EmptyString, _ => true
  | String a pre', String b s' => Ascii.eqb a b && startswith pre' s'
  | String _ _, EmptyString => false
  end.

(** [sub in s]. *)
Fixpoint contains (sub s : string) : bool :=
  startswith sub s
  || match s with
     | EmptyString => false
     | String _ s' => contains sub s'
     end.

End Str.

(** ** The part of Python's [re] module the analyzer relies on

    Patterns are kept as syntax trees; every pattern of the source is
    compiled with [re.IGNORECASE], so literals and classes are matched
    without regard to case. [search] decides whether the pattern
    matches somewhere in the text, by backtracking with a
    continuation; the character before the current position is
    threaded along for [\b]. *)
Module Re.

Inductive regex : Type :=
| Eps
| Chr (c : ascii)
| Cls (p : ascii -> bool)
| Seq (r1 r2 : regex)
| Alt (r1 r2 : regex)
| Star (r : regex)
| WordB.

(** The characters between 128 and 255 that [str.isalnum] accepts. *)
Definition is_alnum_high (c : ascii) : bool :=
  (Str.code c =? 170)%nat || (Str.code c =? 178)%nat
  || (Str.code c =? 179)%nat || (Str.code c =? 181)%nat
  || (Str.code c =? 185)%nat || (Str.code c =? 186)%nat
  || Str.in_range 188 190 c || Str.in_range 192 214 c
  || Str.in_range 216 246 c || Str.in_range 248 255 c.

(** [\w]: alphanumeric or underscore. *)
Definition is_word (c : ascii) : bool :=
  Str.is_upper c || Str.is_lower c || Str.is_digit c || Ascii.eqb c "_"
  || is_alnum_high c.

Definition word_before (prev : option ascii) : bool :=
  match prev with Some c => is_word c | None => false end.

Definition word_at (s : string) : bool :=
  match s with String c _ => is_word c | EmptyString => false end.

Fixpoint rmatch (r : regex) (prev : option ascii) (s : string)
    (k : option ascii -> string -> bool) {struct r} : bool :=
  match r with
  | Eps => k prev s
  | Chr c =>
      match s with
      | String x s' =>
          if Ascii.eqb (Str.lower_char x) (Str.lower_char c)
          then k (Some x) s' else false
      | EmptyString => false
      end
  | Cls p =>
      match s with
      | String x s' =>
          if p x || p (Str.lower_char x) || p (Str.upper_char x)
          then k (Some x) s' else false
      | EmptyString => false
      end
  | Seq r1 r2 => rmatch r1 prev s (fun prev' s' => rmatch r2 prev' s' k)
  | Alt r1 r2 => rmatch r1 prev s k || rmatch r2 prev s k
  | Star r1 =>
      (fix loop (fuel : nat) (prev : option ascii) (s : string) : bool :=
         match fuel with
         | O => k prev s
         | S fuel' =>
             rmatch r1 prev s
               (fun prev' s' =>
                  if (String.length s' <? String.length s)%nat
                  then loop fuel' prev' s' else false)
             || k prev s
         end) (String.length s) prev s
  | WordB =>
      if xorb (word_before prev) (word_at s) then k prev s else false
  end.

(** A match starting exactly at the current position. *)
Definition match_here (r : regex) (prev : option ascii) (s : string) : bool :=
  rmatch r prev s (fun _ _ => true).

Fixpoint search_from (r : regex) (prev : option ascii) (s : string) : bool :=
  match_here r prev s
  || match s with
     | EmptyString => false
     | String c s' => search_from r (Some c) s'
     end.

(** [pattern.search(text)] as a truth value. *)
Definition search (r : regex) (text : string) : bool :=
  search_from r None text.

(** Pattern constructors. *)
Fixpoint lit (w : string) : regex :=
  match w with
  | EmptyString => Eps
  | String c w' => Seq (Chr c) (lit w')
  end.

Fixpoint alts (rs : list regex) : regex :=
  match rs with
  | [] => Eps
  | [r] => r
  | r :: rs' => Alt r (alts rs')
  end.

Fixpoint seqs (rs : list regex) : regex :=
  match rs with
  | [] => Eps
  | r :: rs' => Seq r (seqs rs')
  end.

Definition plus (r : regex) : regex := Seq r (Star r).

(** [\s+] *)
Definition spaces : regex := plus (Cls Str.is_space).

(** [len(re.findall(r'[C]{n,}', text))] for a character class [C]
    (no flags): the matches are the maximal runs of class characters
    that are at least [n] long; [cur] is the length of the run
    being read. *)
Fixpoint count_runs (p : ascii -> bool) (n cur : nat) (text : string) : nat :=
  match text with
  | EmptyString => if (n <=? cur)%nat then 1 else 0
  | String c text' =>
      if p c then count_runs p n (S cur) text'
      else ((if (n <=? cur)%nat then 1 else 0) + count_runs p n 0 text')%nat
  end.

(** [re.sub(r'\s+', ' ', text)]: every maximal run of whitespace
    becomes one space; [in_ws] tells that the previous character was
    whitespace. *)
Fixpoint collapse_spaces (in_ws : bool) (text : string) : string :=
  match text with
  | EmptyString => EmptyString
  | String c text' =>
      if Str.is_space c
      then if in_ws then collapse_spaces true text'
           else String " " (collapse_spaces true text')
      else String c (collapse_spaces false text')
  end.

(** Number of leading characters of [s] equal to [c]. *)
Fixpoint run_length (c : ascii) (s : string) : nat :=
  match s with
  | String x s' => if Ascii.eqb x c then S (run_length c s') else 0%nat
  | EmptyString => 0%nat
  end.

(** [re.sub(r'(.)\1{3,}', r'\1\1', text)]: a character other than a
    newline followed by at least three copies of itself is replaced,
    with the whole run, by two copies; [skip] counts the characters
    of a replaced run still to be dropped. *)
Fixpoint reduce_repeats (skip : nat) (text : string) : string :=
  match text with
  | EmptyString => EmptyString
  | String c text' =>
      match skip with
      | S skip' => reduce_repeats skip' text'
      | O =>
          if negb (Ascii.eqb c "010") && (3 <=? run_length c text')%nat
          then String c (String c (reduce_repeats (run_length c text') text'))
          else String c (reduce_repeats 0 text')
      end
  end.

End Re.

(** ** The scoring and classification methods of [ContentAnalyzer] *)
Module ContentAnalyzer.

(** [_combine_analysis_scores] (content_analyzer.py, lines 279-313). *)
Definition _combine_analysis_scores
    (toxicity_analysis sentiment_analysis : gmap string Q)
    (pattern_analysis : gmap string bool) : Q :=
  let base_score := Py.get toxicity_analysis "toxicity" 0.0 in
  let base_score :=
    if Py.ltb 0.5 (Py.get toxicity_analysis "severe_toxicity" 0.0)
    then Py.max base_score 0.8 else base_score in
  let base_score :=
    if Py.ltb 0.3 (Py.get toxicity_analysis "threat" 0.0)
    then Py.max base_score 0.9 else base_score in
  let sentiment_score := Py.get sentiment_analysis "compound" 0.0 in
  let base_score :=
    if Py.ltb sentiment_score (-0.5)
    then Py.max base_score (Py.abs sentiment_score * 0.6) else base_score in
  let base_score :=
    if Py.get_truthy pattern_analysis "has_threats"
    then Py.max base_score 0.85 else base_score in
  let base_score :=
    if Py.get_truthy pattern_analysis "has_hate_speech"
    then Py.max base_score 0.75 else base_score in
  let base_score :=
    if Py.get_truthy pattern_analysis "excessive_caps"
       && Py.get_truthy pattern_analysis "has_profanity"
    then Py.min (base_score + 0.2) 1.0 else base_score in
  Py.min base_score 1.0.

(** [_determine_category] (lines 315-347). *)
Definition _determine_category
    (toxicity_analysis : gmap string Q)
    (pattern_analysis : gmap string bool)
    (combined_score : Q) : ToxicityCategory :=
  if Py.ltb combined_score 0.3 then SAFE
  else if Py.get_truthy pattern_analysis "has_threats"
          || Py.ltb 0.4 (Py.get toxicity_analysis "threat" 0.0)
  then THREAT
  else if Py.get_truthy pattern_analysis "has_hate_speech"
          || Py.ltb 0.7 combined_score
  then HATE_SPEECH
  else if Py.ltb 0.5 (Py.get toxicity_analysis "insult" 0.0)
          && Py.ltb 0.6 combined_score
  then CYBERBULLYING
  else if Py.ltb 0.5 combined_score then HARASSMENT
  else INAPPROPRIATE.

(** [_determine_severity] (lines 349-367). *)
Definition _determine_severity
    (combined_score : Q) (category : ToxicityCategory) : SeverityLevel :=
  if ToxicityCategory_eqb category THREAT then CRITICAL
  else if Py.geb combined_score 0.8 then HIGH
  else if Py.geb combined_score 0.6 then MEDIUM
  else if Py.geb combined_score 0.3 then LOW
  else LOW.

(** [_calculate_confidence] (lines 466-485);
    [pattern_matches] counts the true values of the flag dict. *)
Definition _calculate_confidence
    (toxicity_analysis : gmap string Q)
    (pattern_analysis : gmap string bool) : Q :=
  let confidence := 0.5 in
  let confidence :=
    if Py.ltb 0.1 (Py.get toxicity_analysis "toxicity" 0.0)
    then confidence + 0.3 else confidence in
  let pattern_matches :=
    length (filter (fun kv => snd kv = true) (map_to_list pattern_analysis)) in
  let confidence :=
    confidence + Py.min (Py.of_int pattern_matches * 0.1) 0.2 in
  Py.min confidence 0.95.


(** [_generate_explanation] (lines 369-415). The three arguments of
    the source are kept; [text] is not read. *)
Definition explanations (category : ToxicityCategory) : option string :=
  match category with
  | HATE_SPEECH => Some
      "This content contains language that may be hurtful or discriminatory towards individuals or groups based on their identity."%string
  | CYBERBULLYING => Some
      "This content contains language that could be perceived as bullying, intimidating, or meant to cause emotional harm to someone."%string
  | HARASSMENT => Some
      "This content contains language that may be considered harassing or repeatedly targeting someone in a negative way."%string
  | THREAT => Some
      "This content contains language that could be interpreted as a threat or expression of intent to cause harm."%string
  | INAPPROPRIATE => Some
      "This content contains language that may not be appropriate for all audiences or contexts."%string
  | _ => None
  end.

Definition _generate_explanation
    (category : ToxicityCategory) (score : Q) (text : string) : string :=
  if ToxicityCategory_eqb category SAFE
  then "This content appears to be safe and appropriate for most audiences."%string
  else
    let base_explanation :=
      default "This content has been flagged for potential toxicity."%string
              (explanations category) in
    if Py.ltb score 0.5
    then String.append base_explanation
           " The content is borderline and context may be important."
    else if Py.ltb score 0.7
    then String.append base_explanation
           " The content shows moderate signs of toxicity."
    else String.append base_explanation
           " The content shows strong indicators of toxicity.".

(** [_generate_suggestions] (lines 417-464). *)
Definition base_suggestions (category : ToxicityCategory)
  : option (list string) :=
  match category with
  | HATE_SPEECH => Some
      [ "Consider using more inclusive language that doesn't target or demean groups of people";
        "Think about how your words might affect someone from the group you're discussing";
        "Try expressing your viewpoint without using language that could hurt others" ]%string
  | CYBERBULLYING => Some
      [ "Consider how the recipient might feel reading this message";
        "Try expressing disagreement without personal attacks";
        "Think about whether this comment builds up or tears down the conversation" ]%string
  | HARASSMENT => Some
      [ "Consider giving the person space rather than continuing to engage negatively";
        "Try focusing on the topic rather than the person";
        "Ask yourself if this comment is constructive or just venting" ]%string
  | THREAT => Some
      [ "Express disagreement or frustration without mentioning harm";
        "Consider taking a break before responding when you're angry";
        "Remember that threats can have serious legal and personal consequences" ]%string
  | _ => None
  end.

Definition default_suggestions : list string :=
  [ "Consider rephrasing your message in a more positive way";
    "Think about the impact your words might have on others";
    "Try expressing your thoughts with more empathy and understanding" ]%string.

(** The string appended under the comment
    [# Add general wellness suggestions]. *)
Definition wellness_suggestion : string :=
  "Remember: kind words can make someone's day better!".

Definition _generate_suggestions
    (category : ToxicityCategory) (text : string)
    (user_preferences : option (gmap string string)) : list string :=
  if ToxicityCategory_eqb category SAFE
  then [ "Great job! This content promotes positive communication."%string ]
  else
    let suggestions : list string := [] in
    let suggestions :=
      suggestions ++ default default_suggestions (base_suggestions category) in
    let suggestions := suggestions ++ [ wellness_suggestion ] in
    take 3 suggestions.


(** *** Pattern rule sets (lines 487-522) *)

(** [_compile_hate_speech_patterns]. *)
Definition hate_speech_patterns : list Re.regex :=
  [ (* \b(hate|despise|loathe)\s+(you|them|those)\b *)
    Re.seqs [ Re.WordB;
              Re.alts [Re.lit "hate"; Re.lit "despise"; Re.lit "loathe"];
              Re.spaces;
              Re.alts [Re.lit "you"; Re.lit "them"; Re.lit "those"];
              Re.WordB ];
    (* \b(kill|die|death)\s+(yourself|yourselves)\b *)
    Re.seqs [ Re.WordB;
              Re.alts [Re.lit "kill"; Re.lit "die"; Re.lit "death"];
              Re.spaces;
              Re.alts [Re.lit "yourself"; Re.lit "yourselves"];
              Re.WordB ];
    (* \b(stupid|idiot|moron)\s+(people|person)\b *)
    Re.seqs [ Re.WordB;
              Re.alts [Re.lit "stupid"; Re.lit "idiot"; Re.lit "moron"];
              Re.spaces;
              Re.alts [Re.lit "people"; Re.lit "person"];
              Re.WordB ] ].

(** [_compile_threat_patterns]. *)
Definition threat_patterns : list Re.regex :=
  [ (* \b(going\s+to|gonna|will)\s+(kill|hurt|harm|beat|destroy)\b *)
    Re.seqs [ Re.WordB;
              Re.alts [ Re.seqs [Re.lit "going"; Re.spaces; Re.lit "to"];
                        Re.lit "gonna"; Re.lit "will" ];
              Re.spaces;
              Re.alts [ Re.lit "kill"; Re.lit "hurt"; Re.lit "harm";
                        Re.lit "beat"; Re.lit "destroy" ];
              Re.WordB ];
    (* \b(watch\s+out|be\s+careful|you\s+better)\b *)
    Re.seqs [ Re.WordB;
              Re.alts [ Re.seqs [Re.lit "watch"; Re.spaces; Re.lit "out"];
                        Re.seqs [Re.lit "be"; Re.spaces; Re.lit "careful"];
                        Re.seqs [Re.lit "you"; Re.spaces; Re.lit "better"] ];
              Re.WordB ];
    (* \bor\s+else\b *)
    Re.seqs [ Re.WordB; Re.lit "or"; Re.spaces; Re.lit "else"; Re.WordB ] ].

Definition one_of (a b : ascii) (c : ascii) : bool :=
  Ascii.eqb c a || Ascii.eqb c b.

(** [\b[a-z]*] stem [[a-z]*\b], the stem being two literals around a
    two-character class. *)
Definition stem_pattern (pre : string) (a b : ascii) (post : string)
  : Re.regex :=
  Re.seqs [ Re.WordB; Re.Star (Re.Cls Str.is_lower);
            Re.lit pre; Re.Cls (one_of a b); Re.lit post;
            Re.Star (Re.Cls Str.is_lower); Re.WordB ].

(** [_compile_profanity_patterns]. *)
Definition profanity_patterns : list Re.regex :=
  [ (* \b[a-z]*sh[i1]t[a-z]*\b *) stem_pattern "sh" "i" "1" "t";
    (* \b[a-z]*d[a4]mn[a-z]*\b *) stem_pattern "d" "a" "4" "mn";
    (* \b[a-z]*cr[a4]p[a-z]*\b *) stem_pattern "cr" "a" "4" "p" ].

(** [sum(1 for pattern in patterns if pattern.search(text))]. *)
Definition count_matching (patterns : list Re.regex) (text : string) : nat :=
  length (List.filter (fun pattern => Re.search pattern text) patterns).

(** [any(pattern.search(text) for pattern in patterns)]. *)
Definition any_matching (patterns : list Re.regex) (text : string) : bool :=
  existsb (fun pattern => Re.search pattern text) patterns.

(** [_preprocess_text] (lines 170-181). *)
Definition _preprocess_text (text : string) : string :=
  let text := Re.collapse_spaces false (Str.strip text) in
  let text := Re.reduce_repeats 0 text in
  text.

(** [_rule_based_toxicity_analysis] (lines 219-253). *)
Definition _rule_based_toxicity_analysis (text : string) : gmap string Q :=
  let text_lower := Str.lower text in
  let scores : gmap string Q :=
    <["toxicity" := 0.0]> (<["severe_toxicity" := 0.0]> (<["obscene" := 0.0]>
      (<["threat" := 0.0]> (<["insult" := 0.0]> ∅)))) in
  let hate_matches := count_matching hate_speech_patterns text_lower in
  let scores :=
    if (0 <? hate_matches)%nat
    then <["toxicity" := Py.min (0.3 + Py.of_int hate_matches * 0.2) 1.0]> scores
    else scores in
  let threat_matches := count_matching threat_patterns text_lower in
  let scores :=
    if (0 <? threat_matches)%nat
    then
      let scores :=
        <["threat" := Py.min (0.4 + Py.of_int threat_matches * 0.3) 1.0]> scores in
      <["severe_toxicity" := Py.max (Py.get scores "severe_toxicity" 0.0) 0.7]> scores
    else scores in
  let profanity_matches := count_matching profanity_patterns text_lower in
  let scores :=
    if (0 <? profanity_matches)%nat
    then
      let scores :=
        <["obscene" := Py.min (0.2 + Py.of_int profanity_matches * 0.2) 1.0]> scores in
      <["insult" := Py.min (0.3 + Py.of_int profanity_matches * 0.1) 1.0]> scores
    else scores in
  scores.

(** [_analyze_patterns] (lines 262-277). *)
Definition _analyze_patterns (text : string) : gmap string bool :=
  let text_lower := Str.lower text in
  <["has_hate_speech" := any_matching hate_speech_patterns text_lower]>
  (<["has_threats" := any_matching threat_patterns text_lower]>
  (<["has_profanity" := any_matching profanity_patterns text_lower]>
  (<["excessive_caps" := (2 <? Re.count_runs Str.is_upper 4 0 text)%nat]>
  (<["excessive_punctuation" :=
       (0 <? Re.count_runs (one_of "!" "?") 3 0 text)%nat]> ∅)))).


(** *** The analyzer object and its collaborators *)

(** One entry [{'label': ..., 'score': ...}] of the classifier's
    answer. *)
Record LabelScore : Type := { label : string; score : Q }.

(** The fields of [self] that [analyze_text] reads once
    [initialize] has run. [toxicity_classifier] is [None] on the
    fallback path; a call of the classifier that raises is [None].
    [sentiment_analyzer] stands for [polarity_scores]. *)
Record Analyzer : Type := {
  toxicity_classifier : option (string -> option (list (list LabelScore)));
  sentiment_analyzer : string -> gmap string Q
}.

(** The values one call of [analyze_text] reads from the clock:
    [time.time()] on entry and before returning, and
    [datetime.utcnow()]. *)
Record Clock : Type := { time_start : Q; time_end : Q; utcnow : Q }.

(** The loop body of [_analyze_toxicity] (lines 198-211). *)
Definition record_label (scores : gmap string Q) (result : LabelScore)
  : gmap string Q :=
  let label := Str.lower (label result) in
  let score := score result in
  if Str.contains "toxic" label || Str.contains "hate" label
  then <["toxicity" := score]> scores
  else if Str.contains "severe" label then <["severe_toxicity" := score]> scores
  else if Str.contains "obscene" label then <["obscene" := score]> scores
  else if Str.contains "threat" label then <["threat" := score]> scores
  else if Str.contains "insult" label then <["insult" := score]> scores
  else scores.

(** [_analyze_toxicity] (lines 183-217); an exception inside [try]
    (the classifier raising, or [results[0]] on an empty list)
    leads to the rule-based analysis. *)
Definition _analyze_toxicity (self : Analyzer) (text : string) : gmap string Q :=
  match toxicity_classifier self with
  | None => _rule_based_toxicity_analysis text
  | Some classifier =>
      match classifier text with
      | Some (results0 :: _) => fold_left record_label results0 ∅
      | Some [] | None => _rule_based_toxicity_analysis text
      end
  end.

(** [_analyze_sentiment] (lines 255-260). *)
Definition _analyze_sentiment (self : Analyzer) (text : string) : gmap string Q :=
  sentiment_analyzer self text.

(** [_load_support_resources] (lines 524-547). *)
Record SupportResource : Type := {
  name : string; description : string; contact : string; url : string
}.

Definition support_resources_list : list SupportResource :=
  [ {| name := "Crisis Text Line";
       description := "Free 24/7 support via text message";
       contact := "Text HOME to 741741";
       url := "https://www.crisistextline.org/" |};
    {| name := "National Suicide Prevention Lifeline";
       description := "Free and confidential support 24/7";
       contact := "988";
       url := "https://suicidepreventionlifeline.org/" |};
    {| name := "StopBullying.gov";
       description := "Resources for dealing with cyberbullying";
       contact := "Online resources";
       url := "https://www.stopbullying.gov/" |} ].

(** *** [ContentAnalysisResponse] (schemas.py, lines 67-137) *)
Record ContentAnalysisResponse : Type := {
  text : string;
  toxicity_score : Q;
  is_toxic : bool;
  category : ToxicityCategory;
  severity : SeverityLevel;
  sentiment_score : Q;
  confidence : Q;
  explanation : string;
  suggestions : list string;
  support_resources : option (list SupportResource);
  analysis_timestamp : Q;
  processing_time_ms : option Q
}.

Inductive Error : Set :=
| KeyError
| ValidationError.

(** [ge=lo, le=hi] of a [Field]. *)
Definition field_in (lo hi x : Q) : bool := Py.geb x lo && Py.geb hi x.

(** The range constraints checked when the model is constructed. *)
Definition validate (r : ContentAnalysisResponse) : bool :=
  field_in 0.0 1.0 (toxicity_score r)
  && field_in (-1.0) 1.0 (sentiment_score r)
  && field_in 0.0 1.0 (confidence r).

Definition new_ContentAnalysisResponse (r : ContentAnalysisResponse)
  : Error + ContentAnalysisResponse :=
  if validate r then inr r else inl ValidationError.

(** [analyze_text] (lines 87-168), for an initialised analyzer. *)
Definition analyze_text (self : Analyzer) (clock : Clock)
    (text : string) (context : option string)
    (user_preferences : option (gmap string string))
  : Error + ContentAnalysisResponse :=
  let start_time := time_start clock in
  let cleaned_text := _preprocess_text text in
  let toxicity_analysis := _analyze_toxicity self cleaned_text in
  let sentiment_analysis := _analyze_sentiment self cleaned_text in
  let pattern_analysis := _analyze_patterns cleaned_text in
  let combined_score :=
    _combine_analysis_scores toxicity_analysis sentiment_analysis
                             pattern_analysis in
  let category :=
    _determine_category toxicity_analysis pattern_analysis combined_score in
  let severity := _determine_severity combined_score category in
  let explanation := _generate_explanation category combined_score text in
  let suggestions := _generate_suggestions category text user_preferences in
  let support_resources :=
    if Py.ltb 0.7 combined_score
       || existsb (ToxicityCategory_eqb category)
                  [THREAT; CYBERBULLYING; HATE_SPEECH]
    then Some support_resources_list else None in
  let processing_time := (time_end clock - start_time) * 1000 in
  match sentiment_analysis !! "compound" with
  | None => inl KeyError
  | Some compound =>
      new_ContentAnalysisResponse
        {| text := text;
           toxicity_score := combined_score;
           is_toxic := Py.ltb 0.5 combined_score;
           category := category;
           severity := severity;
           sentiment_score := compound;
           confidence := _calculate_confidence toxicity_analysis pattern_analysis;
           explanation := explanation;
           suggestions := suggestions;
           support_resources := support_resources;
           analysis_timestamp := utcnow clock;
           processing_time_ms := Some processing_time |}
  end.

End ContentAnalyzer.


(** ** The reference computations of the specification

    These follow the wording of the specification (data model and
    signal fusion), independently of the code above, with the
    Standard Library's order, minimum and maximum on rationals. *)
Module Spec.

Definition in_unit (x : Q) : Prop := 0 <= x <= 1.

(** RawSignals: the named scores toxicity, severe_toxicity, obscene,
    threat and insult, each a real number in [0,1], 0.0 when
    absent. *)
Definition RawSignals (signals : gmap string Q) : Prop :=
  in_unit (Py.get signals "toxicity" 0.0)
  /\ in_unit (Py.get signals "severe_toxicity" 0.0)
  /\ in_unit (Py.get signals "obscene" 0.0)
  /\ in_unit (Py.get signals "threat" 0.0)
  /\ in_unit (Py.get signals "insult" 0.0).

(** Clamp to [0.0, 1.0]. *)
Definition clamp01 (x : Q) : Q := Qmax 0 (Qmin x 1).

(** The eight steps of signal fusion, in the order of the
    specification. *)
Definition signal_fusion
    (toxicity severe_toxicity threat compound : Q)
    (has_threats has_hate_speech excessive_caps has_profanity : bool) : Q :=
  let base := toxicity in
  let base := if Qlt_le_dec 0.5 severe_toxicity then Qmax base 0.8 else base in
  let base := if Qlt_le_dec 0.3 threat then Qmax base 0.9 else base in
  let base :=
    if Qlt_le_dec compound (-0.5) then Qmax base (Qabs compound * 0.6)
    else base in
  let base := if has_threats then Qmax base 0.85 else base in
  let base := if has_hate_speech then Qmax base 0.75 else base in
  let base := if excessive_caps && has_profanity then base + 0.2 else base in
  clamp01 base.

(** "x ≈ y" of a scenario: equal to one decimal place. *)
Definition approx (x y : Q) : Prop := Qabs (x - y) <= 0.05.

End Spec.

Import ContentAnalyzer.

(** ** The two kinds of step of [_combine_analysis_scores]

    Each [if cond: base_score = max(base_score, v)] of the source is
    a [raise_to]; the final [if] is an [add_boost]. *)

Definition raise_to (cond : bool) (v : Q) (base_score : Q) : Q :=
  if cond then Py.max base_score v else base_score.

Definition add_boost (cond : bool) (base_score : Q) : Q :=
  if cond then Py.min (base_score + 0.2) 1.0 else base_score.

(** ** Sample inputs *)
Module Sample.

Definition signals : gmap string Q :=
  <["toxicity" := 0.4]> (<["severe_toxicity" := 0.6]> ∅).

Definition sentiment : gmap string Q := {[ "compound"%string := -0.9 ]}.

Definition neutral : gmap string Q := {[ "compound"%string := 0.0 ]}.

Definition flags : gmap string bool :=
  <["excessive_caps" := true]> (<["has_profanity" := true]> ∅).

(** Flags of a text with both a threat and a hate-speech pattern. *)
Definition threat_and_hate : gmap string bool :=
  <["has_threats" := true]> (<["has_hate_speech" := true]> ∅).

(** A classifier whose single answer is [results]. *)
Definition classifier_giving (results : list LabelScore) (compound : Q)
  : Analyzer :=
  {| toxicity_classifier := Some (fun _ => Some [results]);
     sentiment_analyzer := fun _ => {[ "compound"%string := compound ]} |}.

(** An analyzer without a classifier (the fallback path). *)
Definition fallback (compound : Q) : Analyzer :=
  {| toxicity_classifier := None;
     sentiment_analyzer := fun _ => {[ "compound"%string := compound ]} |}.

Definition negative_toxicity : list LabelScore :=
  [ {| label := "toxic"; score := -0.5 |} ].

Definition clock1 : Clock :=
  {| time_start := 10; time_end := 10.5; utcnow := 1000 |}.

Definition clock2 : Clock :=
  {| time_start := 20; time_end := 20.25; utcnow := 2000 |}.

Definition kill_or_else : string := "I will kill you or else".

End Sample.

(** ** Comparing two responses *)

(** Equality of every field of a response other than the two that
    record clock readings ([analysis_timestamp], [processing_time_ms]). *)
Definition agree_except_clock (r1 r2 : ContentAnalysisResponse) : Prop :=
  text r1 = text r2
  /\ toxicity_score r1 = toxicity_score r2
  /\ is_toxic r1 = is_toxic r2
  /\ category r1 = category r2
  /\ severity r1 = severity r2
  /\ sentiment_score r1 = sentiment_score r2
  /\ confidence r1 = confidence r2
  /\ explanation r1 = explanation r2
  /\ suggestions r1 = suggestions r2
  /\ support_resources r1 = support_resources r2.

(** ** The request model and the [/analyze] endpoint *)
Module Api.

(** [ContentAnalysisRequest] (schemas.py, lines 40-65). *)
Record ContentAnalysisRequest : Type := {
  request_text : string;
  request_context : option string;
  request_user_preferences : option (gmap string string)
}.

(** [len(s)]. *)
Definition len (s : string) : Z := Z.of_nat (String.length s).

(** The validator [text_must_not_be_empty]; its [ValueError] reaches
    the caller as a validation error. *)
Definition text_must_not_be_empty (v : string) : Error + string :=
  match Str.strip v with
  | EmptyString => inl ValidationError
  | stripped => inr stripped
  end.

(** Construction of a request: the length bounds of the field
    ([min_length=1], [max_length=10000]) are checked on the text as
    received, then the validator runs and its result is stored. *)
Definition new_ContentAnalysisRequest
    (text : string) (context : option string)
    (user_preferences : option (gmap string string))
  : Error + ContentAnalysisRequest :=
  if (1 <=? len text)%Z && (len text <=? 10000)%Z
  then match text_must_not_be_empty text with
       | inl e => inl e
       | inr v => inr {| request_text := v;
                         request_context := context;
                         request_user_preferences := user_preferences |}
       end
  else inl ValidationError.

(** A task handed to [background_tasks.add_task]. *)
Inductive BackgroundTask : Type :=
| store_analysis (original_text : string)
                 (analysis_result : ContentAnalysisResponse)
| prepare_support_resources (analysis_result : ContentAnalysisResponse).

Record HTTPException : Type := { status_code : nat; detail : string }.

(** [analyze_content] (main.py, lines 94-142): the response and the
    background tasks after the call, or the exception raised. Logging
    is left out. *)
Definition analyze_content
    (content_analyzer : Analyzer) (clock : Clock)
    (request : ContentAnalysisRequest) (background_tasks : list BackgroundTask)
  : HTTPException + (ContentAnalysisResponse * list BackgroundTask) :=
  match analyze_text content_analyzer clock (request_text request)
                     (request_context request)
                     (request_user_preferences request) with
  | inr analysis_result =>
      let background_tasks :=
        background_tasks
        ++ [store_analysis (request_text request) analysis_result] in
      let background_tasks :=
        if Py.ltb 0.7 (toxicity_score analysis_result)
        then background_tasks ++ [prepare_support_resources analysis_result]
        else background_tasks in
      inr (analysis_result, background_tasks)
  | inl _ =>
      inl {| status_code := 500;
             detail := "Oops! Something went wrong while analyzing the content. Please try again." |}
  end.

End Api.

(** ** The in-memory store of analysis results

    [Database] of [backend/models/database.py], for the methods that
    handle analysis results. The [data] dict of a record is a record
    here: [store_analysis] always writes the same three keys, and
    [analysis_result.dict()] has exactly the fields of the response.
    Printing is left out. *)
Module Db.

Record RecordData : Type := {
  original_text : string;
  analysis_result : ContentAnalysisResponse;
  user_id : option string
}.

(** [InMemoryRecord] (lines 27-33). *)
Record InMemoryRecord : Type := {
  id : string;
  data : RecordData;
  created_at : Q;
  updated_at : Q
}.

Record Database : Type := {
  connected : bool;
  analysis_history : list InMemoryRecord
}.

(** The store after [__init__] (lines 44-54). *)
Definition init : Database :=
  {| connected := false; analysis_history := [] |}.

(** [connect] (lines 56-76). *)
Definition connect (self : Database) : Database :=
  if connected self then self
  else {| connected := true; analysis_history := analysis_history self |}.

(** [int(x)] of a float: truncation towards zero. *)
Definition int (x : Q) : Z := Z.quot (Qnum x) (Zpos (Qden x)).

(** The three readings of [datetime.utcnow()] made by one call of
    [store_analysis], as timestamps. *)
Record StoreClock : Type := {
  id_time : Q;
  created_time : Q;
  updated_time : Q
}.

(** [store_analysis] (lines 94-130): the identifier returned and the
    store after the call. *)
Definition store_analysis (self : Database) (clock : StoreClock)
    (text : string) (result : ContentAnalysisResponse)
  : string * Database :=
  let self := if connected self then self else connect self in
  let analysis_id :=
    String.append "analysis_"
      (String.append
         (pretty (Z.of_nat (length (analysis_history self)) + 1)%Z)
         (String.append "_" (pretty (int (id_time clock))))) in
  let record :=
    {| id := analysis_id;
       data := {| original_text := text;
                  analysis_result := result;
                  user_id := None |};
       created_at := created_time clock;
       updated_at := updated_time clock |} in
  (analysis_id,
   {| connected := connected self;
      analysis_history := analysis_history self ++ [record] |}).

(** [AnalysisHistory] (schemas.py, lines 250-260). *)
Record AnalysisHistory : Type := {
  history_id : string;
  history_user_id : option string;
  history_original_text : string;
  history_analysis_result : ContentAnalysisResponse;
  feedback : option string;
  history_created_at : Q
}.

(** [l[-limit:]]. *)
Definition last_slice {A : Type} (limit : Z) (l : list A) : list A :=
  if (0 <? limit)%Z then drop (length l - Z.to_nat limit) l
  else drop (Z.to_nat (- limit)) l.

(** [user_id is None or record.data.get("user_id") == user_id]. *)
Definition user_matches (user : option string) (record : InMemoryRecord)
  : bool :=
  match user with
  | None => true
  | Some u =>
      match user_id (data record) with
      | Some v => String.eqb v u
      | None => false
      end
  end.

(** The loop body of [get_analysis_history]: the stored response is
    rebuilt with the constructor, and a record whose response is
    rejected is skipped. *)
Definition convert (user : option string) (results : list AnalysisHistory)
    (record : InMemoryRecord) : list AnalysisHistory :=
  if user_matches user record
  then match new_ContentAnalysisResponse (analysis_result (data record)) with
       | inr response =>
           results ++ [ {| history_id := id record;
                           history_user_id := user_id (data record);
                           history_original_text := original_text (data record);
                           history_analysis_result := response;
                           feedback := None;
                           history_created_at := created_at record |} ]
       | inl _ => results
       end
  else results.

(** [get_analysis_history] (lines 177-207). *)
Definition get_analysis_history (self : Database)
    (user : option string) (limit : Z) : list AnalysisHistory * Database :=
  let self := if connected self then self else connect self in
  (fold_left (convert user) (last_slice limit (analysis_history self)) [],
   self).

(** [category_counts[category] = category_counts.get(category, 0) + 1]
    on a dict kept in insertion order. *)
Fixpoint count_category (category : ToxicityCategory)
    (counts : list (ToxicityCategory * nat)) : list (ToxicityCategory * nat) :=
  match counts with
  | [] => [(category, 1%nat)]
  | (k, n) :: rest =>
      if ToxicityCategory_eqb k category then (k, (n + 1)%nat) :: rest
      else (k, n) :: count_category category rest
  end.

(** The dict returned by [get_toxicity_stats]. *)
Record Stats : Type := {
  total_analyses : nat;
  toxic_content_rate : Q;
  category_breakdown : list (ToxicityCategory * nat);
  average_toxicity_score : Q
}.

(** The loop body of [get_toxicity_stats]. *)
Definition tally (acc : nat * list Q * list (ToxicityCategory * nat))
    (record : InMemoryRecord) : nat * list Q * list (ToxicityCategory * nat) :=
  let '(toxic_count, toxicity_scores, category_counts) := acc in
  let result := analysis_result (data record) in
  ((if is_toxic result then (toxic_count + 1)%nat else toxic_count),
   toxicity_scores ++ [toxicity_score result],
   count_category (category result) category_counts).

(** [sum(xs)] of floats. *)
Definition sum (xs : list Q) : Q := fold_left Qplus xs 0.

(** [get_toxicity_stats] (lines 209-251). *)
Definition get_toxicity_stats (self : Database) : Stats * Database :=
  let self := if connected self then self else connect self in
  let total := length (analysis_history self) in
  if (total =? 0)%nat
  then ({| total_analyses := 0;
           toxic_content_rate := 0.0;
           category_breakdown := [];
           average_toxicity_score := 0.0 |}, self)
  else
    let '(toxic_count, toxicity_scores, category_counts) :=
      fold_left tally (analysis_history self) (0%nat, [], []) in
    ({| total_analyses := total;
        toxic_content_rate := (Py.of_int toxic_count / Py.of_int total) * 100;
        category_breakdown := category_counts;
        average_toxicity_score :=
          match toxicity_scores with
          | [] => 0.0
          | _ => sum toxicity_scores / Py.of_int (length toxicity_scores)
          end |}, self).

(** A call of [store_analysis]: its clock readings and arguments. *)
Definition Call : Type := StoreClock * string * ContentAnalysisResponse.

(** The store after a sequence of calls of [store_analysis]. *)
Definition after_calls (self : Database) (calls : list Call) : Database :=
  fold_left (fun db '(clock, text, result) =>
               snd (store_analysis db clock text result))
            calls self.

End Db.

(** ** Normal forms of text *)
Module Norm.

(** Whitespace is tidy: every whitespace character is a single space
    standing between two other characters. [can_space] tells that a
    space may come next, [can_end] that the text may end here. *)
Fixpoint tidy (can_space can_end : bool) (s : string) : bool :=
  match s with
  | EmptyString => can_end
  | String c s' =>
      if Str.is_space c
      then can_space && Ascii.eqb c " " && tidy false false s'
      else tidy true true s'
  end.

(** Every character is whitespace. *)
Fixpoint all_space (s : string) : bool :=
  match s with
  | EmptyString => true
  | String c s' => Str.is_space c && all_space s'
  end.

(** No character is followed by three copies of itself. *)
Fixpoint short_runs (s : string) : bool :=
  match s with
  | EmptyString => true
  | String c s' => (Re.run_length c s' <? 3)%nat && short_runs s'
  end.

(** The normal form of a cleaned text: tidy whitespace and no long
    runs. *)
Definition normalised (s : string) : Prop :=
  tidy false true s = true /\ short_runs s = true.

End Norm.

(** ** Further sample inputs *)
Module Case.

(** A threat signal between the fusion threshold 0.3 and the category
    threshold 0.4. *)
Definition weak_threat : gmap string Q := {[ "threat"%string := 0.35 ]}.

(** An analyzer whose classifier raises on every text. *)
Definition failing : Analyzer :=
  {| toxicity_classifier := Some (fun _ => None);
     sentiment_analyzer := fun _ => {[ "compound"%string := 0.0 ]} |}.

(** An answer with the labels of the model named in [initialize]. *)
Definition toxic_bert_answer : list LabelScore :=
  [ {| label := "toxic"; score := 0.9 |};
    {| label := "severe_toxic"; score := 0.8 |};
    {| label := "obscene"; score := 0.1 |};
    {| label := "threat"; score := 0.1 |};
    {| label := "insult"; score := 0.2 |};
    {| label := "identity_hate"; score := 0.05 |} ].

Definition toxic_bert : Analyzer :=
  Sample.classifier_giving toxic_bert_answer 0.0.

(** The request accepted for a padded text. *)
Definition request : Api.ContentAnalysisRequest :=
  {| Api.request_text := Sample.kill_or_else;
     Api.request_context := None;
     Api.request_user_preferences := None |}.

(** The clock readings of a call of [store_analysis]. *)
Definition store_clock : Db.StoreClock :=
  {| Db.id_time := 1000.5; Db.created_time := 1000.5;
     Db.updated_time := 1000.5 |}.

(** The response to [Sample.kill_or_else] on the fallback path with
    neutral sentiment, at [Sample.clock1]. *)
Definition kill_or_else_response : ContentAnalysisResponse :=
  {| text := Sample.kill_or_else;
     toxicity_score := 0.9;
     is_toxic := true;
     category := THREAT;
     severity := CRITICAL;
     sentiment_score := 0.0;
     confidence := 0.5 + 0.1;
     explanation := _generate_explanation THREAT 0.9 Sample.kill_or_else;
     suggestions := _generate_suggestions THREAT Sample.kill_or_else None;
     support_resources := Some support_resources_list;
     analysis_timestamp := 1000;
     processing_time_ms := Some ((10.5 - 10) * 1000) |}.

Definition calls : list Db.Call :=
  [ (store_clock, Sample.kill_or_else, kill_or_else_response);
    (store_clock, "second text"%string, kill_or_else_response) ].

End Case.

(** * Properties *)

(** ** Comparisons, [max] and [min] *)

Lemma ltb_true_iff (x y : Q) : Py.ltb x y = true <-> x < y.
Proof.
  unfold Py.ltb. rewrite negb_true_iff. split.
  - intros H. apply Qnot_le_lt. intros Hle.
    apply Qle_bool_iff in Hle. congruence.
  - intros H. destruct (Qle_bool y x) eqn:E; [|reflexivity].
    apply Qle_bool_iff in E. lra.
Qed.

Lemma ltb_false_iff (x y : Q) : Py.ltb x y = false <-> y <= x.
Proof.
  split.
  - intros H. apply Qnot_lt_le. intros Hlt.
    apply ltb_true_iff in Hlt. congruence.
  - intros H. destruct (Py.ltb x y) eqn:E; [|reflexivity].
    apply ltb_true_iff in E. lra.
Qed.

Lemma geb_true_iff (x y : Q) : Py.geb x y = true <-> y <= x.
Proof. unfold Py.geb. apply Qle_bool_iff. Qed.

Lemma geb_false_iff (x y : Q) : Py.geb x y = false <-> x < y.
Proof.
  split.
  - intros H. apply Qnot_le_lt. intros Hle.
    apply geb_true_iff in Hle. congruence.
  - intros H. destruct (Py.geb x y) eqn:E; [|reflexivity].
    apply geb_true_iff in E. lra.
Qed.

(** Case analysis on an innermost comparison of the goal. *)
Ltac split_ltb :=
  match goal with
  | |- context [Py.ltb ?a ?b] =>
      lazymatch a with context [Py.ltb _ _] => fail | _ => idtac end;
      lazymatch b with context [Py.ltb _ _] => fail | _ => idtac end;
      let E := fresh "E" in
      destruct (Py.ltb a b) eqn:E;
      [apply ltb_true_iff in E | apply ltb_false_iff in E]
  end.

Ltac split_geb :=
  match goal with
  | |- context [Py.geb ?a ?b] =>
      let E := fresh "E" in
      destruct (Py.geb a b) eqn:E;
      [apply geb_true_iff in E | apply geb_false_iff in E]
  end.

Lemma max_Qmax (a b : Q) : Py.max a b == Qmax a b.
Proof.
  unfold Py.max. split_ltb.
  - symmetry. apply Q.max_r. lra.
  - symmetry. apply Q.max_l. lra.
Qed.

Lemma min_Qmin (a b : Q) : Py.min a b == Qmin a b.
Proof.
  unfold Py.min. split_ltb.
  - symmetry. apply Q.min_r. lra.
  - symmetry. apply Q.min_l. lra.
Qed.

Lemma max_bounds (a b : Q) :
  a <= Py.max a b /\ b <= Py.max a b /\ (Py.max a b = a \/ Py.max a b = b).
Proof. unfold Py.max. split_ltb; repeat split; auto; lra. Qed.

Lemma min_bounds (a b : Q) :
  Py.min a b <= a /\ Py.min a b <= b /\ (Py.min a b = a \/ Py.min a b = b).
Proof. unfold Py.min. split_ltb; repeat split; auto; lra. Qed.

Lemma max_mono (a a' b b' : Q) :
  a <= a' -> b <= b' -> Py.max a b <= Py.max a' b'.
Proof. intros Ha Hb. unfold Py.max. repeat split_ltb; lra. Qed.

Lemma min_mono (a a' b b' : Q) :
  a <= a' -> b <= b' -> Py.min a b <= Py.min a' b'.
Proof. intros Ha Hb. unfold Py.min. repeat split_ltb; lra. Qed.

(** ** Signal fusion, step by step *)

Lemma combine_steps (tox sent : gmap string Q) (pat : gmap string bool) :
  _combine_analysis_scores tox sent pat =
  Py.min
    (add_boost (Py.get_truthy pat "excessive_caps"
                && Py.get_truthy pat "has_profanity")
      (raise_to (Py.get_truthy pat "has_hate_speech") 0.75
        (raise_to (Py.get_truthy pat "has_threats") 0.85
          (raise_to (Py.ltb (Py.get sent "compound" 0.0) (-0.5))
                    (Py.abs (Py.get sent "compound" 0.0) * 0.6)
            (raise_to (Py.ltb 0.3 (Py.get tox "threat" 0.0)) 0.9
              (raise_to (Py.ltb 0.5 (Py.get tox "severe_toxicity" 0.0)) 0.8
                (Py.get tox "toxicity" 0.0)))))))
    1.0.
Proof. reflexivity. Qed.

Lemma raise_to_ge (cond : bool) (v b : Q) : b <= raise_to cond v b.
Proof. unfold raise_to. destruct cond; [apply max_bounds | lra]. Qed.

Lemma raise_to_true_ge (v b : Q) : v <= raise_to true v b.
Proof. unfold raise_to. apply max_bounds. Qed.

Lemma raise_to_mono (c1 c2 : bool) (v b1 b2 : Q) :
  (c1 = true -> c2 = true) -> b1 <= b2 ->
  raise_to c1 v b1 <= raise_to c2 v b2.
Proof.
  intros Hc Hb. unfold raise_to. destruct c1.
  - rewrite Hc by reflexivity. apply max_mono; lra.
  - destruct c2; [|exact Hb].
    pose proof (max_bounds b2 v) as [H _]. lra.
Qed.

Lemma add_boost_mono (cond : bool) (b1 b2 : Q) :
  b1 <= b2 -> add_boost cond b1 <= add_boost cond b2.
Proof.
  intros Hb. unfold add_boost. destruct cond; [|exact Hb].
  apply min_mono; lra.
Qed.

Lemma clamp_after_boost_ge (cond : bool) (lo b : Q) :
  lo <= 1 -> lo <= b -> lo <= Py.min (add_boost cond b) 1.0.
Proof.
  intros Hlo Hb. unfold add_boost, Py.min.
  destruct cond; repeat split_ltb; lra.
Qed.

Lemma combine_le_1 (tox sent : gmap string Q) (pat : gmap string bool) :
  _combine_analysis_scores tox sent pat <= 1.
Proof.
  rewrite combine_steps.
  match goal with |- Py.min ?x _ <= _ => pose proof (min_bounds x 1.0) as [_ [H _]] end.
  lra.
Qed.

Lemma combine_ge_toxicity (tox sent : gmap string Q) (pat : gmap string bool)
    (lo : Q) :
  lo <= 1 -> lo <= Py.get tox "toxicity" 0.0 ->
  lo <= _combine_analysis_scores tox sent pat.
Proof.
  intros Hlo Ht. rewrite combine_steps.
  apply clamp_after_boost_ge; [exact Hlo|].
  repeat (eapply Qle_trans; [|apply raise_to_ge]). exact Ht.
Qed.

Lemma combine_ge_threat_flag (tox sent : gmap string Q) (pat : gmap string bool) :
  Py.get_truthy pat "has_threats" = true ->
  0.85 <= _combine_analysis_scores tox sent pat.
Proof.
  intros Hf. rewrite combine_steps, Hf.
  apply clamp_after_boost_ge; [lra|].
  eapply Qle_trans; [|apply raise_to_ge]. apply raise_to_true_ge.
Qed.

Lemma combine_pointwise_mono (tox1 tox2 sent : gmap string Q)
    (pat : gmap string bool) :
  (forall k, Py.get tox1 k 0.0 <= Py.get tox2 k 0.0) ->
  _combine_analysis_scores tox1 sent pat <= _combine_analysis_scores tox2 sent pat.
Proof.
  intros H. rewrite !combine_steps.
  apply min_mono; [|lra]. apply add_boost_mono.
  do 3 (apply raise_to_mono; [tauto|]).
  apply raise_to_mono.
  { rewrite !ltb_true_iff. pose proof (H "threat"%string). lra. }
  apply raise_to_mono.
  { rewrite !ltb_true_iff. pose proof (H "severe_toxicity"%string). lra. }
  apply H.
Qed.

(** ** Agreement with the reference fusion *)

Lemma raise_to_reference (cond : bool) (v b b' : Q) :
  b == b' -> raise_to cond v b == (if cond then Qmax b' v else b').
Proof.
  intros Hb. unfold raise_to. destruct cond; [|exact Hb].
  rewrite max_Qmax, Hb. reflexivity.
Qed.

Lemma raise_to_reference_dec (x y v b b' : Q) :
  b == b' ->
  raise_to (Py.ltb x y) v b == (if Qlt_le_dec x y then Qmax b' v else b').
Proof.
  intros Hb. rewrite (raise_to_reference _ v b b' Hb).
  destruct (Qlt_le_dec x y) as [Hlt|Hle].
  - apply ltb_true_iff in Hlt. rewrite Hlt. reflexivity.
  - apply ltb_false_iff in Hle. rewrite Hle. reflexivity.
Qed.

Lemma clamp_after_boost_reference (cond : bool) (b b' : Q) :
  0 <= b -> b == b' ->
  Py.min (add_boost cond b) 1.0 == Spec.clamp01 (if cond then b' + 0.2 else b').
Proof.
  intros Hpos Hb. unfold Spec.clamp01, add_boost.
  destruct cond.
  - rewrite !min_Qmin, <- Hb.
    destruct (Q.min_spec (b + 0.2) 1.0) as [[H1 E1]|[H1 E1]];
      rewrite E1.
    + rewrite Q.min_l by lra. 
      destruct (Q.min_spec (b + 0.2) 1) as [[H2 E2]|[H2 E2]]; rewrite E2;
        rewrite Q.max_r by lra; lra.
    + rewrite Q.min_l by lra.
      destruct (Q.min_spec (b + 0.2) 1) as [[H2 E2]|[H2 E2]]; rewrite E2;
        rewrite Q.max_r by lra; lra.
  - rewrite min_Qmin, <- Hb.
    destruct (Q.min_spec b 1.0) as [[H1 E1]|[H1 E1]]; rewrite E1;
    destruct (Q.min_spec b 1) as [[H2 E2]|[H2 E2]]; rewrite E2;
      rewrite Q.max_r by lra; lra.
Qed.

(** Concrete inequalities and equations between rationals. *)
Ltac by_computation := vm_compute; repeat split; congruence.

Lemma RawSignals_toxicity_nonneg (tox : gmap string Q) :
  Spec.RawSignals tox -> 0 <= Py.get tox "toxicity" 0.0.
Proof. intros [[H _] _]. exact H. Qed.

(** C1. For every RawSignals mapping (each named score read with
    default 0.0), every sentiment compound and every assignment of the
    pattern flags, the score returned by [_combine_analysis_scores]
    equals the eight-step reference computation of the specification:
    base = toxicity, raised to 0.8, 0.9, |compound| * 0.6, 0.85 and
    0.75 under the respective conditions in that order, then 0.2
    added under excessive_caps and has_profanity, then clamped to
    [0, 1]. *)
Theorem fusion_matches_reference
    (tox sent : gmap string Q) (pat : gmap string bool) :
  Spec.RawSignals tox ->
  _combine_analysis_scores tox sent pat ==
  Spec.signal_fusion
    (Py.get tox "toxicity" 0.0) (Py.get tox "severe_toxicity" 0.0)
    (Py.get tox "threat" 0.0) (Py.get sent "compound" 0.0)
    (Py.get_truthy pat "has_threats") (Py.get_truthy pat "has_hate_speech")
    (Py.get_truthy pat "excessive_caps") (Py.get_truthy pat "has_profanity").
Proof.
  intros Hdom. apply RawSignals_toxicity_nonneg in Hdom.
  rewrite combine_steps. cbv beta zeta delta [Spec.signal_fusion].
  apply clamp_after_boost_reference.
  - repeat (eapply Qle_trans; [|apply raise_to_ge]). exact Hdom.
  - do 2 apply raise_to_reference.
    do 3 apply raise_to_reference_dec.
    reflexivity.
Qed.

Lemma fusion_matches_reference_witness :
  Spec.RawSignals Sample.signals
  /\ _combine_analysis_scores Sample.signals Sample.sentiment Sample.flags ==
     Spec.signal_fusion 0.4 0.6 0.0 (-0.9) false false true true.
Proof.
  split.
  - by_computation.
  - apply (fusion_matches_reference Sample.signals Sample.sentiment Sample.flags).
    by_computation.
Defined.

(** ** Range of the fused score *)

(** C2 (as amended). Classifier signals are used as received. The
    fused score never exceeds 1, and it is at least 0 whenever the
    toxicity signal is at least 0, whatever the other signals are. A
    response is returned only when the fused score passes the range
    check of the response schema, so a returned [toxicity_score] is
    the fused score and lies in [0, 1]. With a negative fused score
    no response is returned: the construction of the response fails
    with a validation error when the sentiment answer has a compound
    entry, and the call fails with the key error of
    [sentiment_analysis['compound']] when it has none. *)
Theorem returned_score_in_unit_interval
    (self : Analyzer) (clock : Clock) (text : string)
    (context : option string) (user_preferences : option (gmap string string)) :
  let cleaned_text := _preprocess_text text in
  let tox := _analyze_toxicity self cleaned_text in
  let combined_score :=
    _combine_analysis_scores tox (_analyze_sentiment self cleaned_text)
                             (_analyze_patterns cleaned_text) in
  combined_score <= 1
  /\ (0 <= Py.get tox "toxicity" 0.0 -> 0 <= combined_score)
  /\ (forall r, analyze_text self clock text context user_preferences = inr r ->
                toxicity_score r = combined_score /\ 0 <= combined_score <= 1)
  /\ (combined_score < 0 ->
      (forall r,
          analyze_text self clock text context user_preferences <> inr r)
      /\ (forall c,
             _analyze_sentiment self cleaned_text !! "compound" = Some c ->
             analyze_text self clock text context user_preferences
             = inl ValidationError)
      /\ (_analyze_sentiment self cleaned_text !! "compound" = None ->
          analyze_text self clock text context user_preferences
          = inl KeyError)).
Proof.
  intros cleaned_text tox combined_score.
  assert (Hret : forall r,
             analyze_text self clock text context user_preferences = inr r ->
             toxicity_score r = combined_score /\ 0 <= combined_score <= 1).
  { intros r. unfold analyze_text.
    destruct (_analyze_sentiment self (_preprocess_text text) !! "compound")
      as [compound|]; [|discriminate].
    unfold new_ContentAnalysisResponse.
    match goal with |- context [validate ?x] => destruct (validate x) eqn:V end;
      [|discriminate].
    intros [= <-]. split; [reflexivity|].
    unfold validate, field_in in V. cbn [toxicity_score] in V.
    apply andb_true_iff in V as [V _]. apply andb_true_iff in V as [V _].
    apply andb_true_iff in V as [V1 V2].
    apply geb_true_iff in V1, V2. fold cleaned_text tox combined_score in V1, V2.
    lra. }
  split; [apply combine_le_1|].
  split; [intros Ht; apply combine_ge_toxicity; [lra|exact Ht]|].
  split; [exact Hret|].
  intros Hneg. split; [intros r Hr; apply Hret in Hr; lra|].
  unfold analyze_text. fold cleaned_text. split.
  - intros c Hc. rewrite Hc. unfold new_ContentAnalysisResponse.
    match goal with |- context [validate ?x] =>
      assert (V : validate x = false) end; [|rewrite V; reflexivity].
    unfold validate, field_in. cbn [toxicity_score].
    fold tox combined_score.
    assert (Py.geb combined_score 0.0 = false) as ->
      by (apply geb_false_iff; lra).
    reflexivity.
  - intros Hc. rewrite Hc. reflexivity.
Qed.

(** C2, counterexample. A classifier answering [toxic: -0.5] for a
    text without pattern matches and with neutral sentiment: the
    fused score is -0.5, outside [0, 1], and no response is
    returned. *)
Lemma negative_toxicity_is_not_clamped :
  let self := Sample.classifier_giving Sample.negative_toxicity 0.0 in
  let cleaned_text := _preprocess_text "hello there" in
  _combine_analysis_scores (_analyze_toxicity self cleaned_text)
                           (_analyze_sentiment self cleaned_text)
                           (_analyze_patterns cleaned_text) == -0.5
  /\ ~ (0 <= _combine_analysis_scores (_analyze_toxicity self cleaned_text)
                                     (_analyze_sentiment self cleaned_text)
                                     (_analyze_patterns cleaned_text) <= 1)
  /\ analyze_text self Sample.clock1 "hello there" None None = inl ValidationError.
Proof.
  cbv zeta. split; [by_computation|]. split; [|vm_compute; reflexivity].
  vm_compute. intros [H _]. apply H. reflexivity.
Qed.

(** ** Category and severity *)

(** C3. The category branches are a first-match-wins priority list:
    with a combined score of at least 0.3, an input meeting both the
    THREAT condition (has_threats or threat > 0.4) and the HATE_SPEECH
    condition (has_hate_speech or score > 0.7) is classified THREAT. *)
Theorem threat_precedes_hate_speech
    (tox : gmap string Q) (pat : gmap string bool) (combined_score : Q) :
  0.3 <= combined_score ->
  Py.get_truthy pat "has_threats" = true \/ 0.4 < Py.get tox "threat" 0.0 ->
  Py.get_truthy pat "has_hate_speech" = true \/ 0.7 < combined_score ->
  _determine_category tox pat combined_score = THREAT
  /\ _determine_category tox pat combined_score <> HATE_SPEECH.
Proof.
  intros Hs Hthreat _. unfold _determine_category.
  apply ltb_false_iff in Hs. rewrite Hs.
  assert (Py.get_truthy pat "has_threats"
          || Py.ltb 0.4 (Py.get tox "threat" 0.0) = true) as ->.
  { apply orb_true_iff. rewrite ltb_true_iff. exact Hthreat. }
  split; [reflexivity|discriminate].
Qed.

Lemma threat_precedes_hate_speech_witness :
  _determine_category ∅ Sample.threat_and_hate 0.75 = THREAT
  /\ _determine_category ∅ Sample.threat_and_hate 0.75 <> HATE_SPEECH.
Proof.
  apply (threat_precedes_hate_speech ∅ Sample.threat_and_hate 0.75).
  - by_computation.
  - left. reflexivity.
  - left. reflexivity.
Defined.

(** C4. The severity is CRITICAL whenever the category is THREAT,
    whatever the score; for any other category it is HIGH when
    score >= 0.8, MEDIUM when 0.6 <= score < 0.8 and LOW otherwise,
    hence never CRITICAL. *)
Theorem severity_table (combined_score : Q) (category : ToxicityCategory) :
  (category = THREAT ->
   _determine_severity combined_score category = CRITICAL)
  /\ (category <> THREAT ->
      (0.8 <= combined_score ->
       _determine_severity combined_score category = HIGH)
      /\ (0.6 <= combined_score < 0.8 ->
          _determine_severity combined_score category = MEDIUM)
      /\ (combined_score < 0.6 ->
          _determine_severity combined_score category = LOW)
      /\ _determine_severity combined_score category <> CRITICAL).
Proof.
  split.
  - intros ->. reflexivity.
  - intros Hc. unfold _determine_severity.
    assert (ToxicityCategory_eqb category THREAT = false) as ->.
    { destruct category; try reflexivity. contradiction. }
    repeat split_geb; repeat split; intros; try reflexivity;
      try discriminate; lra.
Qed.

(** C6. The category is SAFE if and only if the combined score is
    strictly below 0.3, whatever the pattern flags and raw signals. *)
Theorem safe_iff_score_below_threshold
    (tox : gmap string Q) (pat : gmap string bool) (combined_score : Q) :
  _determine_category tox pat combined_score = SAFE <-> combined_score < 0.3.
Proof.
  unfold _determine_category. split.
  - intros H. apply ltb_true_iff.
    destruct (Py.ltb combined_score 0.3); [reflexivity|].
    repeat match type of H with
           | (if ?c then _ else _) = _ => destruct c
           end; discriminate.
  - intros H. apply ltb_true_iff in H. rewrite H. reflexivity.
Qed.

(** ** Monotonicity of fusion *)

(** C5. Fusion is monotone in each raw signal: if two signal mappings
    agree on every field but one, and that field is larger in the
    second, then for any fixed sentiment and pattern flags the score
    fused from the second is at least the score fused from the
    first. *)
Theorem fusion_monotone_in_each_signal
    (tox1 tox2 sent : gmap string Q) (pat : gmap string bool) (field : string) :
  (forall k, k <> field -> Py.get tox1 k 0.0 == Py.get tox2 k 0.0) ->
  Py.get tox1 field 0.0 <= Py.get tox2 field 0.0 ->
  _combine_analysis_scores tox1 sent pat <= _combine_analysis_scores tox2 sent pat.
Proof.
  intros Hsame Hfield. apply combine_pointwise_mono. intros k.
  destruct (decide (k = field)) as [->|Hne]; [exact Hfield|].
  rewrite (Hsame k Hne). lra.
Qed.

Lemma fusion_monotone_in_each_signal_witness :
  _combine_analysis_scores Sample.signals Sample.neutral Sample.flags <=
  _combine_analysis_scores (<["threat" := 0.5]> Sample.signals)
                           Sample.neutral Sample.flags.
Proof.
  apply (fusion_monotone_in_each_signal
           Sample.signals (<["threat" := 0.5]> Sample.signals)
           Sample.neutral Sample.flags "threat").
  - intros k Hk. unfold Py.get.
    rewrite lookup_insert_ne by congruence. reflexivity.
  - by_computation.
Defined.

(** ** The threat flag *)

(** C10. For raw signals in [0,1], when the pattern flag has_threats
    is set the fused score is at least 0.85, the category computed
    from it is THREAT (the SAFE branch is not taken) and the severity
    is CRITICAL. *)
Theorem threat_flag_forces_critical_threat
    (tox sent : gmap string Q) (pat : gmap string bool) :
  Spec.RawSignals tox ->
  Py.get_truthy pat "has_threats" = true ->
  let combined_score := _combine_analysis_scores tox sent pat in
  let category := _determine_category tox pat combined_score in
  0.85 <= combined_score
  /\ category = THREAT
  /\ category <> SAFE
  /\ _determine_severity combined_score category = CRITICAL.
Proof.
  intros _ Hflag combined_score category.
  assert (Hs : 0.85 <= combined_score)
    by (apply combine_ge_threat_flag; exact Hflag).
  assert (Hc : category = THREAT).
  { unfold category, _determine_category. rewrite Hflag.
    assert (Py.ltb combined_score 0.3 = false) as ->
      by (apply ltb_false_iff; lra).
    reflexivity. }
  rewrite Hc. repeat split; [exact Hs|discriminate].
Qed.

Lemma threat_flag_forces_critical_threat_witness :
  0.85 <= _combine_analysis_scores Sample.signals Sample.neutral
                                   Sample.threat_and_hate
  /\ _determine_category Sample.signals Sample.threat_and_hate
       (_combine_analysis_scores Sample.signals Sample.neutral
                                 Sample.threat_and_hate) = THREAT.
Proof.
  pose proof (threat_flag_forces_critical_threat
                Sample.signals Sample.neutral Sample.threat_and_hate) as H.
  cbv zeta in H.
  destruct H as (H1 & H2 & _); [by_computation|reflexivity|].
  split; [exact H1|exact H2].
Defined.

(** ** Suggestions *)

(** C7 (what the code does). Every category other than SAFE has three
    templates, so the closing remark is appended in fourth position
    and removed by the final [suggestions[:3]]: the list returned has
    at most 3 items and never contains the closing remark. *)
Theorem wellness_suggestion_is_cut_off
    (category : ToxicityCategory) (text : string)
    (user_preferences : option (gmap string string)) :
  (length (_generate_suggestions category text user_preferences) <= 3)%nat
  /\ ~ In wellness_suggestion
          (_generate_suggestions category text user_preferences).
Proof.
  destruct category; (split; [vm_compute; lia|]);
    intros H; vm_compute in H; intuition discriminate.
Qed.

(** The list returned for THREAT: the three templates, without the
    closing remark. *)
Example threat_suggestions :
  _generate_suggestions THREAT Sample.kill_or_else None =
  [ "Express disagreement or frustration without mentioning harm";
    "Consider taking a break before responding when you're angry";
    "Remember that threats can have serious legal and personal consequences"
  ]%string.
Proof. reflexivity. Qed.

(** ** The scenario "I will kill you or else" *)

(** C8 (as amended). On the fallback path, with a sentiment compound
    not below -0.5, the text sets has_threats; two threat patterns
    match it (the future-harm pattern and "or else"), so the fallback
    scorer gives threat = min(0.4 + 2 * 0.3, 1.0) = 1.0 and
    severe_toxicity = 0.7; fusion gives 0.9, the category is THREAT
    and the severity CRITICAL. *)
Theorem kill_or_else_scenario (self : Analyzer) :
  toxicity_classifier self = None ->
  let cleaned_text := _preprocess_text Sample.kill_or_else in
  let tox := _analyze_toxicity self cleaned_text in
  let sent := _analyze_sentiment self cleaned_text in
  let pat := _analyze_patterns cleaned_text in
  let combined_score := _combine_analysis_scores tox sent pat in
  let category := _determine_category tox pat combined_score in
  -0.5 <= Py.get sent "compound" 0.0 ->
  count_matching threat_patterns (Str.lower cleaned_text) = 2%nat
  /\ Py.get_truthy pat "has_threats" = true
  /\ Py.get tox "threat" 0.0 == 1.0
  /\ Py.get tox "severe_toxicity" 0.0 == 0.7
  /\ combined_score == 0.9
  /\ category = THREAT
  /\ _determine_severity combined_score category = CRITICAL.
Proof.
  intros Hnone cleaned_text tox sent pat combined_score category Hsent.
  assert (Htox : tox = _rule_based_toxicity_analysis cleaned_text).
  { unfold tox, _analyze_toxicity. rewrite Hnone. reflexivity. }
  assert (Hflag : Py.get_truthy pat "has_threats" = true)
    by (vm_compute; reflexivity).
  assert (Hs : combined_score == 0.9).
  { unfold combined_score. rewrite combine_steps, Htox.
    apply ltb_false_iff in Hsent. fold sent. rewrite Hsent.
    cbn [raise_to]. by_computation. }
  assert (Hc : category = THREAT).
  { unfold category, _determine_category. rewrite Hflag.
    assert (Py.ltb combined_score 0.3 = false) as ->
      by (apply ltb_false_iff; lra).
    reflexivity. }
  split; [vm_compute; reflexivity|].
  split; [exact Hflag|].
  split; [rewrite Htox; by_computation|].
  split; [rewrite Htox; by_computation|].
  split; [exact Hs|].
  split; [exact Hc|].
  rewrite Hc. reflexivity.
Qed.

Lemma kill_or_else_scenario_witness :
  let self := Sample.fallback 0.0 in
  let cleaned_text := _preprocess_text Sample.kill_or_else in
  Py.get (_analyze_toxicity self cleaned_text) "threat" 0.0 == 1.0
  /\ _combine_analysis_scores (_analyze_toxicity self cleaned_text)
       (_analyze_sentiment self cleaned_text)
       (_analyze_patterns cleaned_text) == 0.9.
Proof.
  pose proof (kill_or_else_scenario (Sample.fallback 0.0)) as H.
  cbv zeta in H.
  destruct H as (_ & _ & H1 & _ & H2 & _);
    [reflexivity|by_computation|].
  cbv zeta. split; [exact H1|exact H2].
Defined.

(** C8, counterexample. With neutral sentiment on the fallback path,
    the statement of the scenario with threat ≈ 0.7 fails: the
    threat signal is 1.0. *)
Lemma kill_or_else_threat_signal_is_not_0_7 :
  let self := Sample.fallback 0.0 in
  let cleaned_text := _preprocess_text Sample.kill_or_else in
  let tox := _analyze_toxicity self cleaned_text in
  let pat := _analyze_patterns cleaned_text in
  let combined_score :=
    _combine_analysis_scores tox (_analyze_sentiment self cleaned_text) pat in
  let category := _determine_category tox pat combined_score in
  ~ (Py.get_truthy pat "has_threats" = true
     /\ Spec.approx (Py.get tox "threat" 0.0) 0.7
     /\ Py.get tox "severe_toxicity" 0.0 == 0.7
     /\ combined_score == 0.9
     /\ category = THREAT
     /\ _determine_severity combined_score category = CRITICAL).
Proof.
  cbv zeta. intros (_ & H & _). vm_compute in H. apply H. reflexivity.
Qed.

(** ** Determinism *)

(** C9 (as amended). Two runs on the same text with the same analyzer
    (hence the same classifier signals and sentiment) either both
    fail with the same error or both return a response, and the two
    responses agree on every field other than [analysis_timestamp]
    and [processing_time_ms], which hold the clock readings of each
    run. *)
Theorem analysis_deterministic_up_to_clock
    (self : Analyzer) (clock1 clock2 : Clock) (text : string)
    (context : option string) (user_preferences : option (gmap string string)) :
  match analyze_text self clock1 text context user_preferences,
        analyze_text self clock2 text context user_preferences with
  | inr r1, inr r2 =>
      agree_except_clock r1 r2
      /\ analysis_timestamp r1 = utcnow clock1
      /\ analysis_timestamp r2 = utcnow clock2
      /\ processing_time_ms r1
         = Some ((time_end clock1 - time_start clock1) * 1000)
      /\ processing_time_ms r2
         = Some ((time_end clock2 - time_start clock2) * 1000)
  | inl e1, inl e2 => e1 = e2
  | _, _ => False
  end.
Proof.
  unfold analyze_text.
  destruct (_analyze_sentiment self (_preprocess_text text) !! "compound")
    as [compound|]; [|reflexivity].
  unfold new_ContentAnalysisResponse, validate. cbn [toxicity_score sentiment_score confidence].
  match goal with |- context [if ?c then _ else _] => destruct c end;
    [|reflexivity].
  unfold agree_except_clock. cbn. repeat split.
Qed.

(** C9, counterexample. The same text, analyzer and sentiment, run
    at two different times: the two responses differ. *)
Lemma runs_at_different_times_differ :
  analyze_text (Sample.fallback 0.0) Sample.clock1 Sample.kill_or_else None None
  <> analyze_text (Sample.fallback 0.0) Sample.clock2 Sample.kill_or_else None None.
Proof. vm_compute. intros H. discriminate H. Qed.

(** * Further properties of the analyzer *)

(** ** Confidence *)

Lemma of_int_nonneg (n : nat) : 0 <= Py.of_int n.
Proof. unfold Py.of_int, Qle. simpl. lia. Qed.

Lemma confidence_range (tox : gmap string Q) (pat : gmap string bool) :
  0.5 <= _calculate_confidence tox pat <= 0.95
  /\ (Py.get tox "toxicity" 0.0 <= 0.1 -> _calculate_confidence tox pat <= 0.7).
Proof.
  unfold _calculate_confidence. cbv zeta.
  match goal with |- context [Py.of_int ?n] =>
    pose proof (of_int_nonneg n) as Hn; revert Hn;
    generalize (Py.of_int n) end.
  intros q Hq. unfold Py.min. repeat split_ltb; repeat split; intros; lra.
Qed.

Lemma field_in_iff (lo hi x : Q) : field_in lo hi x = true <-> lo <= x <= hi.
Proof.
  unfold field_in. rewrite andb_true_iff, !geb_true_iff. tauto.
Qed.

(** X1. The confidence of [_calculate_confidence] always lies in
    [0.5, 0.95], so it always passes the range check of the response
    schema; without a toxicity signal above 0.1 it is at most 0.7. *)
Theorem confidence_bounds (tox : gmap string Q) (pat : gmap string bool) :
  0.5 <= _calculate_confidence tox pat <= 0.95
  /\ field_in 0.0 1.0 (_calculate_confidence tox pat) = true
  /\ (Py.get tox "toxicity" 0.0 <= 0.1 -> _calculate_confidence tox pat <= 0.7).
Proof.
  destruct (confidence_range tox pat) as [[H1 H2] H3].
  repeat split; try assumption. apply field_in_iff. lra.
Qed.

(** ** Categories *)

(** X2. [_determine_category] never returns SPAM or MISINFORMATION. *)
Theorem category_never_spam_or_misinformation
    (tox : gmap string Q) (pat : gmap string bool) (combined_score : Q) :
  _determine_category tox pat combined_score <> SPAM
  /\ _determine_category tox pat combined_score <> MISINFORMATION.
Proof.
  unfold _determine_category.
  repeat match goal with
         | |- context [if ?c then _ else _] => destruct c
         end; split; discriminate.
Qed.

(** X3. The score band behind each category that is decided by the score:
    INAPPROPRIATE means 0.3 <= score <= 0.5, HARASSMENT means
    0.5 < score <= 0.7, CYBERBULLYING means 0.6 < score <= 0.7 with an
    insult signal above 0.5; none of the three occurs with a threat or
    hate-speech flag. *)
Theorem category_score_bands
    (tox : gmap string Q) (pat : gmap string bool) (combined_score : Q) :
  let category := _determine_category tox pat combined_score in
  (category = INAPPROPRIATE -> 0.3 <= combined_score <= 0.5)
  /\ (category = HARASSMENT -> 0.5 < combined_score <= 0.7)
  /\ (category = CYBERBULLYING ->
      0.6 < combined_score <= 0.7 /\ 0.5 < Py.get tox "insult" 0.0)
  /\ (category = INAPPROPRIATE \/ category = HARASSMENT
      \/ category = CYBERBULLYING ->
      Py.get_truthy pat "has_threats" = false
      /\ Py.get_truthy pat "has_hate_speech" = false
      /\ Py.get tox "threat" 0.0 <= 0.4).
Proof.
  cbv zeta. unfold _determine_category.
  destruct (Py.get_truthy pat "has_threats"),
           (Py.get_truthy pat "has_hate_speech"); cbn [orb andb];
    repeat split_ltb; cbn [orb andb];
    repeat split; intros; try discriminate; try lra;
    repeat match goal with H : _ \/ _ |- _ => destruct H end;
    try discriminate; try lra.
Qed.

(** X4. Severity against the category computed from the same score:
    SAFE and INAPPROPRIATE give LOW, CYBERBULLYING gives MEDIUM,
    HARASSMENT gives LOW or MEDIUM, HIGH only occurs with HATE_SPEECH,
    and CRITICAL occurs exactly with THREAT. *)
Theorem severity_by_category
    (tox : gmap string Q) (pat : gmap string bool) (combined_score : Q) :
  let category := _determine_category tox pat combined_score in
  let severity := _determine_severity combined_score category in
  (category = SAFE \/ category = INAPPROPRIATE -> severity = LOW)
  /\ (category = CYBERBULLYING -> severity = MEDIUM)
  /\ (category = HARASSMENT -> severity = LOW \/ severity = MEDIUM)
  /\ (severity = HIGH -> category = HATE_SPEECH)
  /\ (severity = CRITICAL <-> category = THREAT).
Proof.
  cbv zeta. unfold _determine_category, _determine_severity.
  destruct (Py.get_truthy pat "has_threats"),
           (Py.get_truthy pat "has_hate_speech"); cbn [orb andb];
    repeat split_ltb; cbn [orb andb ToxicityCategory_eqb];
    repeat split_geb;
    repeat split; intros; try discriminate; try lra; try reflexivity;
    repeat match goal with H : _ \/ _ |- _ => destruct H end;
    try discriminate; try lra; auto.
Qed.

(** ** Which signals decide the verdict *)

Lemma abs_of_negative (x : Q) : x <= 0 -> Py.abs x == - x.
Proof. intros H. unfold Py.abs. apply Qabs_neg. exact H. Qed.



Lemma clamp_after_boost_gt (cond : bool) (lo b : Q) :
  lo < 1 -> lo < b -> lo < Py.min (add_boost cond b) 1.0.
Proof.
  intros Hlo Hb. unfold add_boost, Py.min.
  destruct cond; repeat split_ltb; lra.
Qed.

Lemma category_SAFE_iff
    (tox : gmap string Q) (pat : gmap string bool) (combined_score : Q) :
  _determine_category tox pat combined_score = SAFE <-> combined_score < 0.3.
Proof.
  unfold _determine_category. rewrite <- ltb_true_iff.
  destruct (Py.ltb combined_score 0.3); [tauto|].
  split; [|discriminate].
  repeat match goal with
         | |- context [if ?c then _ else _] => destruct c
         end; discriminate.
Qed.


Lemma combine_ge_hate_flag (tox sent : gmap string Q) (pat : gmap string bool) :
  Py.get_truthy pat "has_hate_speech" = true ->
  0.75 <= _combine_analysis_scores tox sent pat.
Proof.
  intros Hf. rewrite combine_steps, Hf.
  apply clamp_after_boost_ge; [lra|]. apply raise_to_true_ge.
Qed.

Lemma combine_ge_threat_signal (tox sent : gmap string Q) (pat : gmap string bool) :
  0.3 < Py.get tox "threat" 0.0 ->
  0.9 <= _combine_analysis_scores tox sent pat.
Proof.
  intros Hf. apply ltb_true_iff in Hf. rewrite combine_steps, Hf.
  apply clamp_after_boost_ge; [lra|].
  do 3 (eapply Qle_trans; [|apply raise_to_ge]). apply raise_to_true_ge.
Qed.

Lemma combine_gt_negative_sentiment
    (tox sent : gmap string Q) (pat : gmap string bool) :
  Py.get sent "compound" 0.0 < -0.5 ->
  0.3 < _combine_analysis_scores tox sent pat.
Proof.
  intros Hf.
  assert (Ha : Py.abs (Py.get sent "compound" 0.0)
               == - Py.get sent "compound" 0.0)
    by (apply abs_of_negative; lra).
  apply ltb_true_iff in Hf. rewrite combine_steps, Hf.
  apply ltb_true_iff in Hf.
  apply clamp_after_boost_gt; [lra|].
  eapply Qlt_le_trans; [|do 2 (eapply Qle_trans; [|apply raise_to_ge]);
                          apply raise_to_true_ge].
  lra.
Qed.

(** X6. With the hate-speech flag set the fused score is at least 0.75
    and the category is THREAT or HATE_SPEECH; it is HATE_SPEECH
    exactly when there is no threat flag and the threat signal is at
    most 0.4. *)
Theorem hate_flag_verdict
    (tox sent : gmap string Q) (pat : gmap string bool) :
  Py.get_truthy pat "has_hate_speech" = true ->
  let combined_score := _combine_analysis_scores tox sent pat in
  let category := _determine_category tox pat combined_score in
  0.75 <= combined_score
  /\ (category = THREAT \/ category = HATE_SPEECH)
  /\ (category = HATE_SPEECH <->
      Py.get_truthy pat "has_threats" = false
      /\ Py.get tox "threat" 0.0 <= 0.4).
Proof.
  intros Hf combined_score category.
  pose proof (combine_ge_hate_flag tox sent pat Hf) as Hs.
  fold combined_score in Hs.
  unfold category, _determine_category. rewrite Hf.
  assert (Py.ltb combined_score 0.3 = false) as ->
    by (apply ltb_false_iff; lra).
  destruct (Py.get_truthy pat "has_threats"); cbn [orb].
  - split; [exact Hs|]. split; [left; reflexivity|].
    split; [discriminate|intros [H _]; discriminate].
  - split_ltb; cbn [orb].
    + split; [exact Hs|]. split; [left; reflexivity|].
      split; [discriminate|intros [_ H]; lra].
    + split; [exact Hs|]. split; [right; reflexivity|].
      split; [intros _; split; [reflexivity|lra]|reflexivity].
Qed.

(** X7. A threat signal in (0.3, 0.4] without the threat flag raises the
    fused score to at least 0.9, yet the category is HATE_SPEECH (the
    THREAT branch needs a signal above 0.4) and the severity HIGH. *)
Theorem weak_threat_signal_is_hate_speech
    (tox sent : gmap string Q) (pat : gmap string bool) :
  0.3 < Py.get tox "threat" 0.0 <= 0.4 ->
  Py.get_truthy pat "has_threats" = false ->
  let combined_score := _combine_analysis_scores tox sent pat in
  let category := _determine_category tox pat combined_score in
  0.9 <= combined_score
  /\ category = HATE_SPEECH
  /\ _determine_severity combined_score category = HIGH.
Proof.
  intros [Hlo Hhi] Hf combined_score category.
  pose proof (combine_ge_threat_signal tox sent pat Hlo) as Hs.
  fold combined_score in Hs.
  assert (Hc : category = HATE_SPEECH).
  { unfold category, _determine_category. rewrite Hf.
    assert (Py.ltb combined_score 0.3 = false) as ->
      by (apply ltb_false_iff; lra).
    assert (Py.ltb 0.4 (Py.get tox "threat" 0.0) = false) as ->
      by (apply ltb_false_iff; lra).
    assert (Py.ltb 0.7 combined_score = true) as ->
      by (apply ltb_true_iff; lra).
    cbn [orb]. rewrite orb_true_r. reflexivity. }
  rewrite Hc. repeat split; [exact Hs|].
  unfold _determine_severity. cbn [ToxicityCategory_eqb].
  assert (Py.geb combined_score 0.8 = true) as ->
    by (apply geb_true_iff; lra).
  reflexivity.
Qed.

(** X8. A sentiment compound below -0.5 alone puts the fused score above
    0.3, so such a text is never classified SAFE. *)
Theorem negative_sentiment_is_never_safe
    (tox sent : gmap string Q) (pat : gmap string bool) :
  Py.get sent "compound" 0.0 < -0.5 ->
  0.3 < _combine_analysis_scores tox sent pat
  /\ _determine_category tox pat (_combine_analysis_scores tox sent pat) <> SAFE.
Proof.
  intros Hc. pose proof (combine_gt_negative_sentiment tox sent pat Hc) as Hs.
  split; [exact Hs|]. rewrite category_SAFE_iff. lra.
Qed.

Lemma hate_flag_verdict_witness :
  0.75 <= _combine_analysis_scores Sample.signals Sample.neutral
                                   Sample.threat_and_hate
  /\ _determine_category Sample.signals Sample.threat_and_hate
       (_combine_analysis_scores Sample.signals Sample.neutral
                                 Sample.threat_and_hate) <> HATE_SPEECH.
Proof.
  pose proof (hate_flag_verdict Sample.signals Sample.neutral
                                Sample.threat_and_hate) as H.
  cbv zeta in H. destruct H as (H1 & _ & H2); [reflexivity|].
  split; [exact H1|]. intros Hc. apply H2 in Hc as [Hc _]. discriminate Hc.
Defined.

Lemma weak_threat_signal_is_hate_speech_witness :
  _determine_category Case.weak_threat ∅
    (_combine_analysis_scores Case.weak_threat Sample.neutral ∅) = HATE_SPEECH.
Proof.
  pose proof (weak_threat_signal_is_hate_speech
                Case.weak_threat Sample.neutral ∅) as H.
  cbv zeta in H. destruct H as (_ & H & _);
    [by_computation|reflexivity|exact H].
Defined.

Lemma negative_sentiment_is_never_safe_witness :
  0.3 < _combine_analysis_scores ∅ Sample.sentiment ∅.
Proof.
  apply (negative_sentiment_is_never_safe ∅ Sample.sentiment ∅).
  by_computation.
Defined.

(** ** The rule-based scorer *)

Lemma any_matching_count (patterns : list Re.regex) (text : string) :
  any_matching patterns text = (0 <? count_matching patterns text)%nat.
Proof.
  unfold any_matching, count_matching.
  induction patterns as [|p ps IH]; [reflexivity|].
  cbn [existsb List.filter]. destruct (Re.search p text); [reflexivity|].
  exact IH.
Qed.

(** Lookups in a dict written as a chain of assignments to literal
    keys. *)
Ltac lookup_literal_keys :=
  unfold Py.get, Py.get_truthy;
  repeat (rewrite lookup_insert_eq
          || rewrite lookup_insert_ne by discriminate
          || rewrite lookup_empty);
  cbn [default from_option id].

Lemma fallback_formula_in_unit (base step : Q) (n : nat) :
  0 <= base -> 0 <= step ->
  0 <= Py.min (base + Py.of_int n * step) 1.0 <= 1.
Proof.
  intros Hb Hs. pose proof (of_int_nonneg n) as Hn.
  assert (0 <= Py.of_int n * step) by (apply Qmult_le_0_compat; assumption).
  unfold Py.min. split_ltb; lra.
Qed.

Lemma rule_based_in_unit (text : string) :
  Spec.RawSignals (_rule_based_toxicity_analysis text).
Proof.
  unfold _rule_based_toxicity_analysis. cbv zeta.
  generalize (count_matching hate_speech_patterns (Str.lower text)).
  generalize (count_matching threat_patterns (Str.lower text)).
  generalize (count_matching profanity_patterns (Str.lower text)).
  intros p t h.
  pose proof (fallback_formula_in_unit 0.3 0.2 h ltac:(lra) ltac:(lra)) as Hh.
  pose proof (fallback_formula_in_unit 0.4 0.3 t ltac:(lra) ltac:(lra)) as Ht.
  pose proof (fallback_formula_in_unit 0.2 0.2 p ltac:(lra) ltac:(lra)) as Hp1.
  pose proof (fallback_formula_in_unit 0.3 0.1 p ltac:(lra) ltac:(lra)) as Hp2.
  unfold Spec.RawSignals, Spec.in_unit.
  destruct (0 <? h)%nat, (0 <? t)%nat, (0 <? p)%nat;
    lookup_literal_keys; unfold Py.max; repeat split_ltb;
    repeat split; lra.
Qed.

(** X9. The signals of [_rule_based_toxicity_analysis] always form a
    valid RawSignals mapping: exactly the five named scores are
    present and each lies in [0, 1]. *)
Theorem fallback_scores_are_raw_signals (text : string) :
  Spec.RawSignals (_rule_based_toxicity_analysis text)
  /\ dom (_rule_based_toxicity_analysis text)
     = ({[ "toxicity"; "severe_toxicity"; "obscene"; "threat"; "insult" ]}
        : gset string)%string.
Proof.
  split; [apply rule_based_in_unit|].
  unfold _rule_based_toxicity_analysis. cbv zeta.
  destruct (0 <? _)%nat, (0 <? _)%nat, (0 <? _)%nat;
    rewrite ?dom_insert_L, dom_empty_L; set_solver.
Qed.

Lemma fallback_formula_positive (base step : Q) (n : nat) :
  0 < base -> 0 <= step ->
  base <= Py.min (base + Py.of_int n * step) 1.0 \/ 1 <= base.
Proof.
  intros Hb Hs. pose proof (of_int_nonneg n) as Hn.
  assert (0 <= Py.of_int n * step) by (apply Qmult_le_0_compat; assumption).
  unfold Py.min. split_ltb; lra.
Qed.

Lemma of_int_pos (n : nat) : (0 <? n)%nat = true -> 1 <= Py.of_int n.
Proof.
  intros H. apply Nat.ltb_lt in H. unfold Py.of_int, Qle. simpl. lia.
Qed.

(** X10. The rule-based scorer and the pattern flags agree on every text:
    the hate-speech flag is set exactly when the toxicity score is
    positive, the threat flag exactly when the threat score is
    positive (it is then at least 0.7, and severe_toxicity is 0.7),
    and the profanity flag exactly when the obscene and insult scores
    are positive. *)
Theorem fallback_scores_match_flags (text : string) :
  let tox := _rule_based_toxicity_analysis text in
  let pat := _analyze_patterns text in
  (Py.get_truthy pat "has_hate_speech" = true <-> 0 < Py.get tox "toxicity" 0.0)
  /\ (Py.get_truthy pat "has_threats" = true <-> 0 < Py.get tox "threat" 0.0)
  /\ (Py.get_truthy pat "has_threats" = true ->
      0.7 <= Py.get tox "threat" 0.0
      /\ Py.get tox "severe_toxicity" 0.0 == 0.7)
  /\ (Py.get_truthy pat "has_threats" = false ->
      Py.get tox "severe_toxicity" 0.0 == 0)
  /\ (Py.get_truthy pat "has_profanity" = true <-> 0 < Py.get tox "obscene" 0.0)
  /\ (Py.get_truthy pat "has_profanity" = true <-> 0 < Py.get tox "insult" 0.0).
Proof.
  cbv zeta. unfold _rule_based_toxicity_analysis, _analyze_patterns. cbv zeta.
  rewrite !any_matching_count.
  generalize (count_matching hate_speech_patterns (Str.lower text)).
  generalize (count_matching threat_patterns (Str.lower text)).
  generalize (count_matching profanity_patterns (Str.lower text)).
  intros p t h.
  pose proof (fallback_formula_positive 0.3 0.2 h ltac:(lra) ltac:(lra)) as Hh.
  pose proof (fallback_formula_positive 0.4 0.3 t ltac:(lra) ltac:(lra)) as Ht.
  pose proof (fallback_formula_positive 0.2 0.2 p ltac:(lra) ltac:(lra)) as Hp1.
  pose proof (fallback_formula_positive 0.3 0.1 p ltac:(lra) ltac:(lra)) as Hp2.
  assert (Ht7 : (0 <? t)%nat = true ->
                0.7 <= Py.min (0.4 + Py.of_int t * 0.3) 1.0).
  { intros E. apply of_int_pos in E. unfold Py.min. split_ltb; lra. }
  destruct (0 <? h)%nat, (0 <? t)%nat, (0 <? p)%nat;
    try specialize (Ht7 eq_refl);
    lookup_literal_keys; unfold Py.max; repeat split_ltb;
    repeat split; intros; try discriminate; try reflexivity; try lra.
Qed.

(** ** Outcomes of [analyze_text] *)

Lemma analyze_toxicity_fallback (self : Analyzer) (text : string) :
  toxicity_classifier self = None ->
  _analyze_toxicity self text = _rule_based_toxicity_analysis text.
Proof. intros H. unfold _analyze_toxicity. rewrite H. reflexivity. Qed.

Lemma analyze_toxicity_failure
    (self : Analyzer) (classifier : string -> option (list (list LabelScore)))
    (text : string) :
  toxicity_classifier self = Some classifier ->
  classifier text = None \/ classifier text = Some [] ->
  _analyze_toxicity self text = _rule_based_toxicity_analysis text.
Proof.
  intros H [Hc|Hc]; unfold _analyze_toxicity; rewrite H, Hc; reflexivity.
Qed.

Lemma validate_iff (r : ContentAnalysisResponse) :
  validate r = true <->
  0 <= toxicity_score r <= 1 /\ -1 <= sentiment_score r <= 1
  /\ 0 <= confidence r <= 1.
Proof.
  unfold validate. rewrite !andb_true_iff, !field_in_iff.
  split; intros; (repeat split; try lra); tauto.
Qed.

(** What a returned response holds. *)
Lemma analyze_text_inr
    (self : Analyzer) (clock : Clock) (text : string)
    (context : option string) (user_preferences : option (gmap string string))
    (r : ContentAnalysisResponse) :
  analyze_text self clock text context user_preferences = inr r ->
  let cleaned_text := _preprocess_text text in
  let tox := _analyze_toxicity self cleaned_text in
  let pat := _analyze_patterns cleaned_text in
  let s := _combine_analysis_scores tox (_analyze_sentiment self cleaned_text) pat in
  let cat := _determine_category tox pat s in
  0 <= s <= 1
  /\ toxicity_score r = s
  /\ is_toxic r = Py.ltb 0.5 s
  /\ category r = cat
  /\ severity r = _determine_severity s cat
  /\ explanation r = _generate_explanation cat s text
  /\ suggestions r = _generate_suggestions cat text user_preferences
  /\ support_resources r =
       (if Py.ltb 0.7 s
           || existsb (ToxicityCategory_eqb cat) [THREAT; CYBERBULLYING; HATE_SPEECH]
        then Some support_resources_list else None)
  /\ ContentAnalyzer.text r = text.
Proof.
  intros H cleaned_text tox pat s cat. unfold analyze_text in H.
  destruct (_analyze_sentiment self (_preprocess_text text) !! "compound")
    as [compound|]; [|discriminate].
  unfold new_ContentAnalysisResponse in H.
  match type of H with context [validate ?x] => destruct (validate x) eqn:V end;
    [|discriminate].
  apply validate_iff in V. cbn in V. destruct V as (V & _).
  match type of H with
  | inr ?x = inr r =>
      assert (Hr : r = x)
        by (symmetry;
            exact (f_equal (fun y => match y with inr v => v | inl _ => r end) H))
  end.
  clear H. subst r. cbn. fold cleaned_text tox pat s cat.
  repeat split; try reflexivity; apply V.
Qed.

Lemma analyze_text_cases
    (self : Analyzer) (clock : Clock) (text : string)
    (context : option string) (user_preferences : option (gmap string string)) :
  let cleaned_text := _preprocess_text text in
  let sent := _analyze_sentiment self cleaned_text in
  let combined_score :=
    _combine_analysis_scores (_analyze_toxicity self cleaned_text) sent
                             (_analyze_patterns cleaned_text) in
  let result := analyze_text self clock text context user_preferences in
  (result = inl KeyError <-> sent !! "compound" = None)
  /\ ((exists r, result = inr r) <->
      exists c, sent !! "compound" = Some c
                /\ -1 <= c <= 1 /\ 0 <= combined_score)
  /\ (result = inl ValidationError <->
      exists c, sent !! "compound" = Some c
                /\ ~ (-1 <= c <= 1 /\ 0 <= combined_score)).
Proof.
  cbv zeta. unfold analyze_text.
  destruct (_analyze_sentiment self (_preprocess_text text) !! "compound")
    as [compound|].
  2:{ split; [tauto|]. split.
      - split; [intros [r H]; discriminate H|intros (c & H & _); discriminate H].
      - split; [discriminate|intros (c & H & _); discriminate H]. }
  unfold new_ContentAnalysisResponse.
  match goal with |- context [validate ?x] =>
    pose proof (validate_iff x) as V; destruct (validate x) end;
    cbn in V;
    match type of V with context [_calculate_confidence ?t ?p] =>
      pose proof (confidence_range t p) as [Hc _] end;
    match type of V with context [_combine_analysis_scores ?t ?p ?q] =>
      pose proof (combine_le_1 t p q) as Hs end.
  - destruct V as [V _]. specialize (V eq_refl).
    split; [split; discriminate|].
    split; [split; [intros _; exists compound; repeat split; lra|eauto]|].
    split; [discriminate|]. intros (c & [= <-] & Hn). exfalso. apply Hn. lra.
  - destruct V as [_ V].
    split; [split; discriminate|].
    split.
    + split; [intros [? H]; discriminate H|].
      intros (c & [= <-] & H1 & H2). assert (false = true); [|discriminate].
      apply V. repeat split; lra.
    + split; [|reflexivity]. intros _. exists compound. split; [reflexivity|].
      intros [H1 H2]. assert (false = true); [|discriminate].
      apply V. repeat split; lra.
Qed.

(** X11. [analyze_text] fails with a key error exactly when the sentiment
    answer has no compound entry, returns a response exactly when the
    compound lies in [-1, 1] and the fused score is not negative, and
    fails validation otherwise. *)
Theorem analyze_text_outcomes
    (self : Analyzer) (clock : Clock) (text : string)
    (context : option string) (user_preferences : option (gmap string string)) :
  let cleaned_text := _preprocess_text text in
  let sent := _analyze_sentiment self cleaned_text in
  let combined_score :=
    _combine_analysis_scores (_analyze_toxicity self cleaned_text) sent
                             (_analyze_patterns cleaned_text) in
  let result := analyze_text self clock text context user_preferences in
  (result = inl KeyError <-> sent !! "compound" = None)
  /\ ((exists r, result = inr r) <->
      exists c, sent !! "compound" = Some c
                /\ -1 <= c <= 1 /\ 0 <= combined_score)
  /\ (result = inl ValidationError <->
      exists c, sent !! "compound" = Some c
                /\ ~ (-1 <= c <= 1 /\ 0 <= combined_score)).
Proof. apply analyze_text_cases. Qed.

Lemma analyze_text_fallback_inr
    (self : Analyzer) (clock : Clock) (text : string)
    (context : option string) (user_preferences : option (gmap string string))
    (compound : Q) :
  toxicity_classifier self = None ->
  _analyze_sentiment self (_preprocess_text text) !! "compound" = Some compound ->
  -1 <= compound <= 1 ->
  exists r, analyze_text self clock text context user_preferences = inr r
            /\ 0 <= toxicity_score r <= 1
            /\ sentiment_score r = compound.
Proof.
  intros Hnone Hsent Hrange. unfold analyze_text. rewrite Hsent.
  unfold new_ContentAnalysisResponse.
  match goal with |- context [validate ?x] =>
    assert (V : validate x = true) end.
  { apply validate_iff. cbn.
    rewrite (analyze_toxicity_fallback self _ Hnone).
    pose proof (rule_based_in_unit (_preprocess_text text)) as [[Ht _] _].
    split; [split; [apply combine_ge_toxicity; [lra|exact Ht]|apply combine_le_1]|].
    split; [exact Hrange|].
    match goal with |- context [_calculate_confidence ?t ?p] =>
      pose proof (confidence_range t p) as [Hc _] end. lra. }
  rewrite V. eexists. split; [reflexivity|]. cbn.
  apply validate_iff in V. cbn in V. split; [apply V|reflexivity].
Qed.

(** X12. On the fallback path the analysis returns a response whenever
    the sentiment compound lies in [-1, 1]; its score is in [0, 1]. *)
Theorem fallback_analysis_returns
    (self : Analyzer) (clock : Clock) (text : string)
    (context : option string) (user_preferences : option (gmap string string))
    (compound : Q) :
  toxicity_classifier self = None ->
  _analyze_sentiment self (_preprocess_text text) !! "compound" = Some compound ->
  -1 <= compound <= 1 ->
  exists r, analyze_text self clock text context user_preferences = inr r
            /\ 0 <= toxicity_score r <= 1
            /\ sentiment_score r = compound.
Proof. apply analyze_text_fallback_inr. Qed.

(** X13. A classifier that raises, or answers with an empty list, never
    makes the analysis fail: the outcome is the one of the analyzer
    without a classifier. *)
Theorem classifier_failure_degrades_to_fallback
    (self : Analyzer) (classifier : string -> option (list (list LabelScore)))
    (clock : Clock) (text : string)
    (context : option string) (user_preferences : option (gmap string string)) :
  toxicity_classifier self = Some classifier ->
  classifier (_preprocess_text text) = None
  \/ classifier (_preprocess_text text) = Some [] ->
  analyze_text self clock text context user_preferences
  = analyze_text {| toxicity_classifier := None;
                    sentiment_analyzer := sentiment_analyzer self |}
                 clock text context user_preferences.
Proof.
  intros Hc Hfail. unfold analyze_text.
  rewrite (analyze_toxicity_failure self classifier _ Hc Hfail).
  reflexivity.
Qed.

(** ** Invariants of a returned response *)

(** The six possible categories with the score band of each. *)
Lemma category_cases
    (tox : gmap string Q) (pat : gmap string bool) (s : Q) :
  (_determine_category tox pat s = SAFE /\ s < 0.3)
  \/ (_determine_category tox pat s = THREAT /\ 0.3 <= s)
  \/ (_determine_category tox pat s = HATE_SPEECH /\ 0.3 <= s)
  \/ (_determine_category tox pat s = CYBERBULLYING /\ 0.6 < s <= 0.7)
  \/ (_determine_category tox pat s = HARASSMENT /\ 0.5 < s <= 0.7)
  \/ (_determine_category tox pat s = INAPPROPRIATE /\ 0.3 <= s <= 0.5).
Proof.
  unfold _determine_category.
  destruct (Py.get_truthy pat "has_threats"),
           (Py.get_truthy pat "has_hate_speech"); cbn [orb andb];
    repeat split_ltb; cbn [orb andb];
    intuition (try reflexivity; try lra).
Qed.

(** Case analysis on the category of a score, with its band. *)
Ltac category_cases tox pat s :=
  let Hc := fresh "Hcat" in
  let Hb := fresh "Hband" in
  destruct (category_cases tox pat s)
    as [[Hc Hb]|[[Hc Hb]|[[Hc Hb]|[[Hc Hb]|[[Hc Hb]|[Hc Hb]]]]]];
  rewrite ?Hc in *.

(** X14. A returned response carries the support resources exactly when
    its category is THREAT, CYBERBULLYING or HATE_SPEECH (a score
    above 0.7 always comes with THREAT or HATE_SPEECH), and the list
    is then the fixed list of three resources. *)
Theorem support_resources_follow_category
    (self : Analyzer) (clock : Clock) (text : string)
    (context : option string) (user_preferences : option (gmap string string))
    (r : ContentAnalysisResponse) :
  analyze_text self clock text context user_preferences = inr r ->
  (support_resources r = Some support_resources_list <->
   category r = THREAT \/ category r = CYBERBULLYING \/ category r = HATE_SPEECH)
  /\ (support_resources r = None <->
      category r = SAFE \/ category r = INAPPROPRIATE \/ category r = HARASSMENT)
  /\ (0.7 < toxicity_score r -> category r = THREAT \/ category r = HATE_SPEECH).
Proof.
  intros H. apply analyze_text_inr in H. cbv zeta in H.
  destruct H as (_ & Hs & _ & Hc & _ & _ & _ & Hr & _).
  rewrite Hr, Hc, Hs. clear Hr Hc Hs.
  match goal with |- context [_determine_category ?t ?p ?sc] =>
    generalize sc; intros score; category_cases t p score end;
    intros; cbn [existsb ToxicityCategory_eqb orb];
    rewrite ?orb_true_r, ?orb_false_r;
    try (assert (Py.ltb 0.7 score = false) as -> by (apply ltb_false_iff; lra));
    (split; [|split]);
    try (split; intros Hx; try discriminate Hx; try reflexivity;
         try tauto;
         repeat match goal with H : _ \/ _ |- _ => destruct H end;
         discriminate);
    try (intros; lra); try tauto.
Qed.

(** X15. The toxic flag of a returned response against its category:
    a toxic response is never SAFE or INAPPROPRIATE, a HARASSMENT or
    CYBERBULLYING response is always toxic, the severity is CRITICAL
    exactly for THREAT, and a SAFE response is not toxic, has severity
    LOW, no support resources, the fixed positive explanation and the
    single positive suggestion. *)
Theorem response_fields_are_consistent
    (self : Analyzer) (clock : Clock) (text : string)
    (context : option string) (user_preferences : option (gmap string string))
    (r : ContentAnalysisResponse) :
  analyze_text self clock text context user_preferences = inr r ->
  (is_toxic r = true -> category r <> SAFE /\ category r <> INAPPROPRIATE)
  /\ (category r = HARASSMENT \/ category r = CYBERBULLYING -> is_toxic r = true)
  /\ (severity r = CRITICAL <-> category r = THREAT)
  /\ (category r = SAFE ->
      is_toxic r = false /\ severity r = LOW /\ support_resources r = None
      /\ explanation r
         = "This content appears to be safe and appropriate for most audiences."%string
      /\ suggestions r
         = ["Great job! This content promotes positive communication."%string]).
Proof.
  intros H. apply analyze_text_inr in H. cbv zeta in H.
  destruct H as (_ & _ & Ht & Hc & Hv & He & Hg & Hr & _).
  rewrite Ht, Hv, He, Hg, Hr, Hc. clear Ht Hv He Hg Hr Hc.
  match goal with |- context [_determine_category ?t ?p ?sc] =>
    generalize sc; intros score; category_cases t p score end;
    intros; unfold _determine_severity, _generate_explanation,
                   _generate_suggestions;
    cbn [existsb ToxicityCategory_eqb orb];
    rewrite ?ltb_true_iff;
    repeat split_geb; repeat split; intros;
    try discriminate; try reflexivity; try lra;
    repeat match goal with H : _ \/ _ |- _ => destruct H end;
    try discriminate; try lra;
    try (apply ltb_false_iff; lra);
    try (assert (Py.ltb 0.7 score = false) as ->
           by (apply ltb_false_iff; lra); reflexivity).
Qed.

(** ** Classifier labels *)

Lemma record_label_dom (scores : gmap string Q) (result : LabelScore) :
  dom (record_label scores result)
  ⊆ dom scores
    ∪ ({[ "toxicity"; "severe_toxicity"; "obscene"; "threat"; "insult" ]}
       : gset string)%string.
Proof.
  unfold record_label. cbv zeta.
  repeat match goal with
         | |- context [if ?c then _ else _] => destruct c
         end; rewrite ?dom_insert; set_solver.
Qed.

Lemma fold_record_label_dom (results : list LabelScore) (scores : gmap string Q) :
  dom (fold_left record_label results scores)
  ⊆ dom scores
    ∪ ({[ "toxicity"; "severe_toxicity"; "obscene"; "threat"; "insult" ]}
       : gset string)%string.
Proof.
  revert scores. induction results as [|r results IH]; intros scores;
    cbn [fold_left]; [set_solver|].
  pose proof (IH (record_label scores r)) as H1.
  pose proof (record_label_dom scores r) as H2. set_solver.
Qed.

(** X16. Whatever labels the classifier answers with, the signals handed
    to fusion only have keys among toxicity, severe_toxicity, obscene,
    threat and insult; labels matching none of the keywords are
    ignored. *)
Theorem toxicity_analysis_has_canonical_keys (self : Analyzer) (text : string) :
  dom (_analyze_toxicity self text)
  ⊆ ({[ "toxicity"; "severe_toxicity"; "obscene"; "threat"; "insult" ]}
     : gset string)%string.
Proof.
  assert (Hfb : dom (_rule_based_toxicity_analysis text)
                ⊆ ({[ "toxicity"; "severe_toxicity"; "obscene"; "threat";
                      "insult" ]} : gset string)%string).
  { unfold _rule_based_toxicity_analysis. cbv zeta.
    destruct (0 <? _)%nat, (0 <? _)%nat, (0 <? _)%nat;
      rewrite ?dom_insert, dom_empty; set_solver. }
  unfold _analyze_toxicity.
  destruct (toxicity_classifier self) as [classifier|]; [|exact Hfb].
  destruct (classifier text) as [[|results0 rest]|]; try exact Hfb.
  pose proof (fold_record_label_dom results0 ∅) as H.
  rewrite dom_empty in H. set_solver.
Qed.

Lemma fold_record_label_no_severe
    (results : list LabelScore) (scores : gmap string Q) :
  scores !! "severe_toxicity" = None ->
  Forall (fun r => Str.contains "severe" (Str.lower (label r)) = true ->
                   Str.contains "toxic" (Str.lower (label r)) = true
                   \/ Str.contains "hate" (Str.lower (label r)) = true)
         results ->
  fold_left record_label results scores !! "severe_toxicity" = None.
Proof.
  revert scores. induction results as [|r results IH]; intros scores Hs Hall;
    cbn [fold_left]; [exact Hs|].
  apply Forall_cons in Hall as [Hr Hall]. apply IH; [|exact Hall].
  unfold record_label. cbv zeta.
  destruct (Str.contains "toxic" (Str.lower (label r))) eqn:E1;
    [cbn [orb]; rewrite lookup_insert_ne by discriminate; exact Hs|].
  destruct (Str.contains "hate" (Str.lower (label r))) eqn:E2;
    [cbn [orb]; rewrite lookup_insert_ne by discriminate; exact Hs|].
  cbn [orb].
  destruct (Str.contains "severe" (Str.lower (label r))) eqn:E3;
    [destruct (Hr eq_refl); discriminate|].
  repeat match goal with
         | |- context [if ?c then _ else _] => destruct c
         end; rewrite ?lookup_insert_ne by discriminate; exact Hs.
Qed.

(** X17. A label is tested for "toxic" and "hate" before "severe": when
    every label of the classifier's answer that contains "severe"
    also contains "toxic" or "hate" (as "severe_toxic" does), the
    signals have no severe_toxicity entry, it reads as 0.0 and the
    severe-toxicity step of fusion does not fire. *)
Theorem severe_label_is_shadowed_by_toxic
    (self : Analyzer) (classifier : string -> option (list (list LabelScore)))
    (text : string) (results0 : list LabelScore) (rest : list (list LabelScore)) :
  toxicity_classifier self = Some classifier ->
  classifier text = Some (results0 :: rest) ->
  Forall (fun r => Str.contains "severe" (Str.lower (label r)) = true ->
                   Str.contains "toxic" (Str.lower (label r)) = true
                   \/ Str.contains "hate" (Str.lower (label r)) = true)
         results0 ->
  _analyze_toxicity self text !! "severe_toxicity" = None
  /\ Py.ltb 0.5 (Py.get (_analyze_toxicity self text) "severe_toxicity" 0.0)
     = false.
Proof.
  intros Hc Hr Hall. unfold _analyze_toxicity. rewrite Hc, Hr.
  pose proof (fold_record_label_no_severe results0 ∅ (lookup_empty _) Hall) as H.
  split; [exact H|]. unfold Py.get. rewrite H. reflexivity.
Qed.

(** ** Text normalisation *)

Lemma lstrip_length (s : string) :
  (String.length (Str.lstrip s) <= String.length s)%nat.
Proof.
  induction s as [|c s IH]; cbn [Str.lstrip String.length]; [lia|].
  destruct (Str.is_space c); cbn [String.length]; lia.
Qed.

Lemma rstrip_length (s : string) :
  (String.length (Str.rstrip s) <= String.length s)%nat.
Proof.
  induction s as [|c s IH]; cbn [Str.rstrip String.length]; [lia|].
  destruct (Str.rstrip s); [destruct (Str.is_space c)|];
    cbn [String.length] in *; lia.
Qed.

Lemma strip_length (s : string) :
  (String.length (Str.strip s) <= String.length s)%nat.
Proof.
  unfold Str.strip. pose proof (rstrip_length (Str.lstrip s)).
  pose proof (lstrip_length s). lia.
Qed.

Lemma collapse_spaces_length (in_ws : bool) (s : string) :
  (String.length (Re.collapse_spaces in_ws s) <= String.length s)%nat.
Proof.
  revert in_ws. induction s as [|c s IH]; intros in_ws;
    cbn [Re.collapse_spaces String.length]; [lia|].
  destruct (Str.is_space c); [destruct in_ws|]; cbn [String.length];
    match goal with |- context [Re.collapse_spaces ?b s] =>
      specialize (IH b) end; lia.
Qed.

Lemma run_length_le (c : ascii) (s : string) :
  (Re.run_length c s <= String.length s)%nat.
Proof.
  induction s as [|x s IH]; cbn [Re.run_length String.length]; [lia|].
  destruct (Ascii.eqb x c); lia.
Qed.

Lemma reduce_repeats_length (skip : nat) (s : string) :
  (String.length (Re.reduce_repeats skip s) + Nat.min skip (String.length s)
   <= String.length s)%nat.
Proof.
  revert skip. induction s as [|c s IH]; intros skip;
    cbn [Re.reduce_repeats String.length]; [lia|].
  destruct skip as [|skip].
  - destruct (negb (Ascii.eqb c "010") && (3 <=? Re.run_length c s)%nat) eqn:E.
    + apply andb_true_iff in E as [_ E]. apply Nat.leb_le in E.
      pose proof (run_length_le c s). specialize (IH (Re.run_length c s)).
      cbn [String.length]. lia.
    + specialize (IH 0%nat). cbn [String.length]. lia.
  - specialize (IH skip). lia.
Qed.

(** X18. [_preprocess_text] never makes a text longer. *)
Theorem preprocess_text_never_longer (text : string) :
  (String.length (_preprocess_text text) <= String.length text)%nat.
Proof.
  unfold _preprocess_text. cbv zeta.
  pose proof (reduce_repeats_length 0
                (Re.collapse_spaces false (Str.strip text))).
  pose proof (collapse_spaces_length false (Str.strip text)).
  pose proof (strip_length text). lia.
Qed.


Lemma lstrip_empty_iff (s : string) :
  Str.lstrip s = EmptyString <-> Norm.all_space s = true.
Proof.
  induction s as [|c s IH]; cbn [Str.lstrip Norm.all_space]; [tauto|].
  destruct (Str.is_space c); cbn [andb]; [exact IH|].
  split; discriminate.
Qed.

Lemma lstrip_head (s : string) (c : ascii) (s' : string) :
  Str.lstrip s = String c s' -> Str.is_space c = false.
Proof.
  induction s as [|x s IH]; cbn [Str.lstrip]; [discriminate|].
  destruct (Str.is_space x) eqn:E; [exact IH|].
  intros [= <- _]. exact E.
Qed.

Lemma rstrip_head (c : ascii) (s : string) :
  Str.is_space c = false ->
  exists s', Str.rstrip (String c s) = String c s'.
Proof.
  intros Hc. cbn [Str.rstrip]. rewrite Hc.
  destruct (Str.rstrip s); eauto.
Qed.

Lemma strip_empty_iff (s : string) :
  Str.strip s = EmptyString <-> Norm.all_space s = true.
Proof.
  rewrite <- lstrip_empty_iff. unfold Str.strip.
  destruct (Str.lstrip s) as [|c s'] eqn:E; [tauto|].
  apply lstrip_head in E. destruct (rstrip_head c s' E) as [r ->].
  split; discriminate.
Qed.

Lemma strip_head (s : string) (c : ascii) (s' : string) :
  Str.strip s = String c s' -> Str.is_space c = false.
Proof.
  unfold Str.strip. destruct (Str.lstrip s) as [|x t] eqn:E; [discriminate|].
  apply lstrip_head in E. destruct (rstrip_head x t E) as [r ->].
  intros [= <- _]. exact E.
Qed.

Lemma collapse_spaces_empty_iff (s : string) :
  Re.collapse_spaces false s = EmptyString <-> s = EmptyString.
Proof.
  destruct s as [|c s]; cbn [Re.collapse_spaces]; [tauto|].
  destruct (Str.is_space c); split; discriminate.
Qed.

Lemma reduce_repeats_empty_iff (s : string) :
  Re.reduce_repeats 0 s = EmptyString <-> s = EmptyString.
Proof.
  destruct s as [|c s]; cbn [Re.reduce_repeats]; [tauto|].
  destruct (_ && _); split; discriminate.
Qed.

(** X19. The cleaned text is empty exactly when the text consists of
    whitespace only (in particular when it is empty). *)
Theorem preprocess_text_empty_iff (text : string) :
  _preprocess_text text = EmptyString <-> Norm.all_space text = true.
Proof.
  unfold _preprocess_text. cbv zeta.
  rewrite reduce_repeats_empty_iff, collapse_spaces_empty_iff.
  apply strip_empty_iff.
Qed.

(** Whitespace after [strip] and [collapse_spaces] *)

Lemma rstrip_idempotent (s : string) :
  Str.rstrip (Str.rstrip s) = Str.rstrip s.
Proof.
  induction s as [|c s IH]; [reflexivity|]. cbn [Str.rstrip].
  destruct (Str.rstrip s) as [|x r] eqn:E.
  - destruct (Str.is_space c) eqn:Ec; [reflexivity|].
    cbn [Str.rstrip]. rewrite Ec. reflexivity.
  - cbn [Str.rstrip] in *. rewrite IH. reflexivity.
Qed.

Lemma rstrip_fixed_tail (c : ascii) (s : string) :
  Str.rstrip (String c s) = String c s ->
  Str.rstrip s = s /\ (s = EmptyString -> Str.is_space c = false).
Proof.
  cbn [Str.rstrip]. destruct (Str.rstrip s) as [|x r] eqn:E.
  - destruct (Str.is_space c); [discriminate|].
    intros [= <-]. split; [reflexivity|reflexivity].
  - intros [= <-]. split; [reflexivity|discriminate].
Qed.

Lemma collapse_spaces_tidy (s : string) :
  Str.rstrip s = s ->
  Norm.tidy true true (Re.collapse_spaces false s) = true
  /\ (s <> EmptyString ->
      Norm.tidy false false (Re.collapse_spaces true s) = true).
Proof.
  induction s as [|c s IH]; intros E.
  - split; [reflexivity|congruence].
  - apply rstrip_fixed_tail in E as [E Hlast].
    destruct (IH E) as [IH1 IH2]. cbn [Re.collapse_spaces].
    destruct (Str.is_space c) eqn:Ec.
    + assert (Hs : s <> EmptyString)
        by (intros ->; specialize (Hlast eq_refl); congruence).
      split; [|intros _; exact (IH2 Hs)].
      cbn [Norm.tidy]. rewrite (IH2 Hs). reflexivity.
    + cbn [Norm.tidy]. rewrite Ec. split; [exact IH1|intros _; exact IH1].
Qed.

Lemma strip_collapse_tidy (text : string) :
  Norm.tidy false true (Re.collapse_spaces false (Str.strip text)) = true.
Proof.
  assert (E : Str.rstrip (Str.strip text) = Str.strip text)
    by apply rstrip_idempotent.
  destruct (Str.strip text) as [|c s] eqn:Es; [reflexivity|].
  apply strip_head in Es. apply rstrip_fixed_tail in E as [E _].
  cbn [Re.collapse_spaces]. rewrite Es. cbn [Norm.tidy]. rewrite Es.
  apply collapse_spaces_tidy. exact E.
Qed.

Lemma tidy_collapse_spaces (cs ce : bool) (s : string) :
  Norm.tidy cs ce s = true -> Re.collapse_spaces (negb cs) s = s.
Proof.
  revert cs ce. induction s as [|c s IH]; intros cs ce H; [reflexivity|].
  cbn [Norm.tidy] in H. cbn [Re.collapse_spaces].
  destruct (Str.is_space c).
  - apply andb_true_iff in H as [H H3]. apply andb_true_iff in H as [-> H2].
    apply Ascii.eqb_eq in H2 as ->. cbn [negb].
    pose proof (IH false false H3) as E. cbn [negb] in E.
    rewrite E. reflexivity.
  - pose proof (IH true true H) as E. cbn [negb] in E.
    rewrite E. reflexivity.
Qed.

Lemma tidy_rstrip (cs ce : bool) (s : string) :
  Norm.tidy cs ce s = true ->
  Str.rstrip s = s /\ (ce = false -> s <> EmptyString).
Proof.
  revert cs ce. induction s as [|c s IH]; intros cs ce H.
  - cbn [Norm.tidy] in H. split; [reflexivity|congruence].
  - split; [|discriminate]. cbn [Norm.tidy] in H. cbn [Str.rstrip].
    destruct (Str.is_space c) eqn:Ec.
    + apply andb_true_iff in H as [_ H3].
      destruct (IH false false H3) as [E Hne]. rewrite E.
      destruct s; [exfalso; apply Hne; reflexivity|reflexivity].
    + destruct (IH true true H) as [E _]. rewrite E.
      destruct s; reflexivity.
Qed.

Lemma tidy_strip (ce : bool) (s : string) :
  Norm.tidy false ce s = true -> Str.strip s = s.
Proof.
  intros H. unfold Str.strip.
  assert (Str.lstrip s = s) as ->.
  { destruct s as [|c s]; [reflexivity|]. cbn [Norm.tidy] in H.
    cbn [Str.lstrip]. destruct (Str.is_space c); [discriminate|reflexivity]. }
  apply (tidy_rstrip false ce s H).
Qed.

(** Runs after [reduce_repeats] *)

Lemma run_length_pos (c x : ascii) (s : string) :
  (1 <= Re.run_length c (String x s))%nat -> x = c.
Proof.
  cbn [Re.run_length]. destruct (Ascii.eqb x c) eqn:E; [|lia].
  intros _. apply Ascii.eqb_eq. exact E.
Qed.

Lemma run_length_same (c : ascii) (s : string) :
  Re.run_length c (String c s) = S (Re.run_length c s).
Proof. cbn [Re.run_length]. rewrite Ascii.eqb_refl. reflexivity. Qed.

Lemma tidy_tail (cs ce : bool) (c : ascii) (s : string) :
  Norm.tidy cs ce (String c s) = true ->
  c <> "010"%char
  /\ exists cs' ce', Norm.tidy cs' ce' s = true
                     /\ (Str.is_space c = false -> cs' = true /\ ce' = true).
Proof.
  cbn [Norm.tidy]. destruct (Str.is_space c) eqn:Ec.
  - intros H. apply andb_true_iff in H as [H H3].
    apply andb_true_iff in H as [_ H2]. apply Ascii.eqb_eq in H2 as ->.
    split; [discriminate|]. exists false, false. split; [exact H3|discriminate].
  - intros H. split; [intros ->; discriminate|].
    exists true, true. split; [exact H|split; reflexivity].
Qed.

Lemma reduce_repeats_tidy (s : string) :
  (forall cs ce, Norm.tidy cs ce s = true ->
                 Norm.tidy cs ce (Re.reduce_repeats 0 s) = true)
  /\ (forall c k, Str.is_space c = false ->
                  (k <= Re.run_length c s)%nat ->
                  Norm.tidy true true s = true ->
                  Norm.tidy true true (Re.reduce_repeats k s) = true).
Proof.
  induction s as [|x s [IH1 IH2]].
  - split; [intros cs ce H; exact H|]. intros c k _ _ _. destruct k; reflexivity.
  - assert (P1 : forall cs ce, Norm.tidy cs ce (String x s) = true ->
              Norm.tidy cs ce (Re.reduce_repeats 0 (String x s)) = true).
    { intros cs ce H. cbn [Re.reduce_repeats].
      destruct (negb (Ascii.eqb x "010") && (3 <=? Re.run_length x s)%nat) eqn:E.
      - apply andb_true_iff in E as [_ E]. apply Nat.leb_le in E.
        cbn [Norm.tidy] in *. destruct (Str.is_space x) eqn:Ex.
        + exfalso. apply andb_true_iff in H as [_ H3].
          destruct s as [|y s]; [cbn in E; lia|].
          assert (y = x) as -> by (apply (run_length_pos x y s); lia).
          cbn [Norm.tidy] in H3. rewrite Ex in H3. discriminate.
        + apply (IH2 x); [exact Ex|lia|exact H].
      - cbn [Norm.tidy] in *. destruct (Str.is_space x).
        + apply andb_true_iff in H as [H H3]. rewrite H.
          apply IH1. exact H3.
        + apply IH1. exact H. }
    split; [exact P1|].
    intros c k Hc Hk H. destruct k as [|k]; [apply P1; exact H|].
    assert (x = c) as -> by (apply (run_length_pos c x s); lia).
    rewrite run_length_same in Hk. cbn [Re.reduce_repeats].
    cbn [Norm.tidy] in H. rewrite Hc in H.
    apply (IH2 c); [exact Hc|lia|exact H].
Qed.

Lemma reduce_repeats_head (x : ascii) (s : string) :
  exists r, Re.reduce_repeats 0 (String x s) = String x r.
Proof. cbn [Re.reduce_repeats]. destruct (_ && _); eauto. Qed.

Lemma run_length_reduce_repeats (s : string) (c : ascii) (k : nat) :
  (k <= Re.run_length c s)%nat ->
  (Re.run_length c (Re.reduce_repeats k s) <= Re.run_length c s - k)%nat.
Proof.
  revert c k. induction s as [|x s IH]; intros c k Hk.
  - destruct k; cbn; lia.
  - destruct k as [|k].
    + destruct (Ascii.eqb x c) eqn:Exc.
      * apply Ascii.eqb_eq in Exc as ->. rewrite run_length_same.
        cbn [Re.reduce_repeats].
        destruct (negb (Ascii.eqb c "010") && (3 <=? Re.run_length c s)%nat)
          eqn:E.
        -- apply andb_true_iff in E as [_ E]. apply Nat.leb_le in E.
           rewrite !run_length_same.
           specialize (IH c (Re.run_length c s) ltac:(lia)). lia.
        -- rewrite run_length_same. specialize (IH c 0%nat ltac:(lia)). lia.
      * destruct (reduce_repeats_head x s) as [r ->].
        cbn [Re.run_length]. rewrite Exc. lia.
    + assert (x = c) as -> by (apply (run_length_pos c x s); lia).
      rewrite run_length_same in *. cbn [Re.reduce_repeats].
      specialize (IH c k ltac:(lia)). lia.
Qed.

Lemma reduce_repeats_short_runs (s : string) (cs ce : bool) (c : ascii) (k : nat) :
  Norm.tidy cs ce s = true ->
  (k <= Re.run_length c s)%nat ->
  Norm.short_runs (Re.reduce_repeats k s) = true.
Proof.
  revert cs ce c k. induction s as [|x s IH]; intros cs ce c k H Hk.
  - destruct k; reflexivity.
  - apply tidy_tail in H as (Hnl & cs' & ce' & H & _).
    destruct k as [|k].
    + cbn [Re.reduce_repeats].
      assert (Ascii.eqb x "010" = false) as ->
        by (apply Ascii.eqb_neq; exact Hnl).
      cbn [negb andb].
      destruct (3 <=? Re.run_length x s)%nat eqn:E.
      * pose proof (run_length_reduce_repeats s x (Re.run_length x s)
                      ltac:(lia)) as Hr.
        cbn [Norm.short_runs]. rewrite run_length_same.
        rewrite (IH cs' ce' x (Re.run_length x s) H ltac:(lia)).
        rewrite !andb_true_r. apply andb_true_iff.
        split; apply Nat.ltb_lt; lia.
      * apply Nat.leb_gt in E.
        pose proof (run_length_reduce_repeats s x 0%nat ltac:(lia)) as Hr.
        cbn [Norm.short_runs].
        rewrite (IH cs' ce' x 0%nat H ltac:(lia)), andb_true_r.
        apply Nat.ltb_lt. lia.
    + assert (x = c) as -> by (apply (run_length_pos c x s); lia).
      rewrite run_length_same in Hk. cbn [Re.reduce_repeats].
      apply (IH cs' ce' c k H). lia.
Qed.

Lemma short_runs_reduce_repeats (s : string) :
  Norm.short_runs s = true -> Re.reduce_repeats 0 s = s.
Proof.
  induction s as [|x s IH]; [reflexivity|]. cbn [Norm.short_runs].
  intros H. apply andb_true_iff in H as [H1 H2]. apply Nat.ltb_lt in H1.
  cbn [Re.reduce_repeats].
  assert ((3 <=? Re.run_length x s)%nat = false) as ->
    by (apply Nat.leb_gt; exact H1).
  rewrite andb_false_r, (IH H2). reflexivity.
Qed.

Lemma preprocess_text_normalised (text : string) :
  Norm.normalised (_preprocess_text text).
Proof.
  unfold _preprocess_text, Norm.normalised. cbv zeta.
  pose proof (strip_collapse_tidy text) as H. split.
  - apply reduce_repeats_tidy. exact H.
  - apply (reduce_repeats_short_runs _ false true " " 0 H). lia.
Qed.

Lemma normalised_preprocess_text (s : string) :
  Norm.normalised s -> _preprocess_text s = s.
Proof.
  intros [Ht Hr]. unfold _preprocess_text. cbv zeta.
  rewrite (tidy_strip true s Ht).
  assert (Re.collapse_spaces false s = s) as ->.
  { destruct s as [|c s]; [reflexivity|]. cbn [Norm.tidy] in Ht.
    cbn [Re.collapse_spaces]. destruct (Str.is_space c); [discriminate|].
    pose proof (tidy_collapse_spaces true true s Ht) as E. cbn [negb] in E.
    rewrite E. reflexivity. }
  apply short_runs_reduce_repeats. exact Hr.
Qed.

(** X20. The cleaned text is in normal form: it has no leading or
    trailing whitespace, every whitespace character in it is a single
    space between two other characters, and no character is followed
    by three copies of itself. *)
Theorem preprocess_text_output_is_normalised (text : string) :
  Norm.tidy false true (_preprocess_text text) = true
  /\ Norm.short_runs (_preprocess_text text) = true.
Proof. apply preprocess_text_normalised. Qed.

(** X21. Cleaning is idempotent, and a text is left unchanged exactly
    when it is in normal form. *)
Theorem preprocess_text_idempotent (text : string) :
  _preprocess_text (_preprocess_text text) = _preprocess_text text
  /\ (_preprocess_text text = text <-> Norm.normalised text).
Proof.
  split.
  - apply normalised_preprocess_text, preprocess_text_normalised.
  - split; [|apply normalised_preprocess_text].
    intros <-. apply preprocess_text_normalised.
Qed.

(** ** Requests and the endpoint *)

Lemma strip_idempotent (s : string) : Str.strip (Str.strip s) = Str.strip s.
Proof.
  unfold Str.strip at 1.
  assert (Str.lstrip (Str.strip s) = Str.strip s) as ->.
  { destruct (Str.strip s) as [|c r] eqn:E; [reflexivity|].
    apply strip_head in E. cbn [Str.lstrip]. rewrite E. reflexivity. }
  unfold Str.strip. apply rstrip_idempotent.
Qed.

Lemma len_strip (s : string) : (Api.len (Str.strip s) <= Api.len s)%Z.
Proof. unfold Api.len. pose proof (strip_length s). lia. Qed.

Lemma preprocess_text_nonempty (s : string) :
  Str.strip s <> EmptyString -> _preprocess_text s <> EmptyString.
Proof.
  intros H. unfold _preprocess_text. cbv zeta.
  rewrite reduce_repeats_empty_iff, collapse_spaces_empty_iff. exact H.
Qed.

Lemma new_request_inr
    (text : string) (context : option string)
    (user_preferences : option (gmap string string))
    (request : Api.ContentAnalysisRequest) :
  Api.new_ContentAnalysisRequest text context user_preferences = inr request
  <->
  (Api.len text <= 10000)%Z /\ Norm.all_space text = false
  /\ request = {| Api.request_text := Str.strip text;
                  Api.request_context := context;
                  Api.request_user_preferences := user_preferences |}.
Proof.
  unfold Api.new_ContentAnalysisRequest, Api.text_must_not_be_empty.
  pose proof (strip_empty_iff text) as He.
  assert (Hlen : Norm.all_space text = false -> (1 <= Api.len text)%Z).
  { destruct text; [discriminate|]. unfold Api.len. cbn [String.length]. lia. }
  destruct (1 <=? Api.len text)%Z eqn:E1; cbn [andb].
  - destruct (Api.len text <=? 10000)%Z eqn:E2.
    + apply Z.leb_le in E2.
      destruct (Str.strip text) as [|c r] eqn:Es.
      * destruct He as [He _]. rewrite (He eq_refl).
        split; [discriminate|intros (_ & H & _); discriminate H].
      * assert (Ha : Norm.all_space text = false).
        { destruct (Norm.all_space text); [|reflexivity].
          destruct He as [_ He]. discriminate (He eq_refl). }
        split; [intros [= <-]; auto|intros (_ & _ & ->); reflexivity].
    + apply Z.leb_gt in E2. split; [discriminate|]. intros (H & _). lia.
  - apply Z.leb_gt in E1. split; [discriminate|].
    intros (_ & H & _). specialize (Hlen H). lia.
Qed.

(** X22. A request is accepted exactly when its text is at most 10000
    characters long and not made of whitespace only; the request
    then stores the stripped text, with the context and preferences
    as given. *)
Theorem request_accepted_iff
    (text : string) (context : option string)
    (user_preferences : option (gmap string string))
    (request : Api.ContentAnalysisRequest) :
  Api.new_ContentAnalysisRequest text context user_preferences = inr request
  <->
  (Api.len text <= 10000)%Z /\ Norm.all_space text = false
  /\ request = {| Api.request_text := Str.strip text;
                  Api.request_context := context;
                  Api.request_user_preferences := user_preferences |}.
Proof. apply new_request_inr. Qed.

(** X23. The text of an accepted request is not empty, has no leading or
    trailing whitespace, is at most 10000 characters long, and its
    cleaned form is not empty either. *)
Theorem accepted_request_text
    (text : string) (context : option string)
    (user_preferences : option (gmap string string))
    (request : Api.ContentAnalysisRequest) :
  Api.new_ContentAnalysisRequest text context user_preferences = inr request ->
  Api.request_text request <> EmptyString
  /\ Str.strip (Api.request_text request) = Api.request_text request
  /\ (1 <= Api.len (Api.request_text request) <= 10000)%Z
  /\ _preprocess_text (Api.request_text request) <> EmptyString
  /\ (1 <= Api.len (_preprocess_text (Api.request_text request)) <= 10000)%Z.
Proof.
  intros H. apply new_request_inr in H as (Hlen & Hsp & ->).
  cbn [Api.request_text].
  assert (Hne : Str.strip text <> EmptyString).
  { intros E. apply strip_empty_iff in E. congruence. }
  assert (Hne' : _preprocess_text (Str.strip text) <> EmptyString).
  { apply preprocess_text_nonempty. rewrite strip_idempotent. exact Hne. }
  pose proof (len_strip text) as Hl.
  assert (Hpl : (Api.len (_preprocess_text (Str.strip text))
                 <= Api.len (Str.strip text))%Z).
  { unfold Api.len, _preprocess_text. cbv zeta.
    pose proof (reduce_repeats_length 0
                  (Re.collapse_spaces false (Str.strip (Str.strip text)))).
    pose proof (collapse_spaces_length false (Str.strip (Str.strip text))).
    pose proof (strip_length (Str.strip text)). lia. }
  assert (Hpos : forall s, s <> EmptyString -> (1 <= Api.len s)%Z).
  { intros [|c s] Hs; [congruence|]. unfold Api.len. cbn [String.length]. lia. }
  pose proof (Hpos _ Hne). pose proof (Hpos _ Hne').
  repeat split; try assumption; try lia. apply strip_idempotent.
Qed.

Lemma analyze_content_inr
    (content_analyzer : Analyzer) (clock : Clock)
    (request : Api.ContentAnalysisRequest)
    (tasks0 tasks : list Api.BackgroundTask) (r : ContentAnalysisResponse) :
  Api.analyze_content content_analyzer clock request tasks0 = inr (r, tasks) ->
  analyze_text content_analyzer clock (Api.request_text request)
               (Api.request_context request)
               (Api.request_user_preferences request) = inr r
  /\ tasks = (tasks0 ++ [Api.store_analysis (Api.request_text request) r])
             ++ (if Py.ltb 0.7 (toxicity_score r)
                 then [Api.prepare_support_resources r] else []).
Proof.
  unfold Api.analyze_content.
  destruct (analyze_text _ _ _ _ _) as [e|r']; [discriminate|].
  cbv zeta. intros [= <- <-]. split; [reflexivity|].
  destruct (Py.ltb 0.7 (toxicity_score r')); [reflexivity|].
  rewrite app_nil_r. reflexivity.
Qed.

(** X24. When the endpoint answers, it schedules the storage of the
    response; it also schedules the preparation of support resources
    exactly when the score is above 0.7, and such a response always
    carries the support resources and is marked toxic. *)
Theorem analyze_content_tasks
    (content_analyzer : Analyzer) (clock : Clock)
    (request : Api.ContentAnalysisRequest)
    (tasks0 tasks : list Api.BackgroundTask) (r : ContentAnalysisResponse) :
  Api.analyze_content content_analyzer clock request tasks0 = inr (r, tasks) ->
  (0.7 < toxicity_score r ->
   tasks = tasks0 ++ [Api.store_analysis (Api.request_text request) r;
                      Api.prepare_support_resources r]
   /\ support_resources r = Some support_resources_list
   /\ is_toxic r = true)
  /\ (toxicity_score r <= 0.7 ->
      tasks = tasks0 ++ [Api.store_analysis (Api.request_text request) r]).
Proof.
  intros H. apply analyze_content_inr in H as [Hr ->].
  apply analyze_text_inr in Hr. cbv zeta in Hr.
  destruct Hr as (_ & Hs & Ht & _ & _ & _ & _ & Hres & _).
  split.
  - intros Hgt. pose proof Hgt as Hgt'. apply ltb_true_iff in Hgt.
    rewrite Hgt. rewrite <- app_assoc. split; [reflexivity|].
    rewrite Hres, Ht. rewrite <- Hs, Hgt. cbn [orb].
    split; [reflexivity|]. apply ltb_true_iff. lra.
  - intros Hle. apply ltb_false_iff in Hle. rewrite Hle.
    apply app_nil_r.
Qed.

(** X25. For an accepted request, an analyzer without classifier and a
    sentiment compound in [-1, 1], the endpoint never answers with an
    error: it returns a response for the stripped text. *)
Theorem analyze_content_fallback_answers
    (content_analyzer : Analyzer) (clock : Clock)
    (text : string) (context : option string)
    (user_preferences : option (gmap string string))
    (request : Api.ContentAnalysisRequest)
    (tasks0 : list Api.BackgroundTask) (compound : Q) :
  Api.new_ContentAnalysisRequest text context user_preferences = inr request ->
  toxicity_classifier content_analyzer = None ->
  _analyze_sentiment content_analyzer
    (_preprocess_text (Api.request_text request)) !! "compound" = Some compound ->
  -1 <= compound <= 1 ->
  exists r tasks,
    Api.analyze_content content_analyzer clock request tasks0 = inr (r, tasks)
    /\ ContentAnalyzer.text r = Str.strip text
    /\ In (Api.store_analysis (Str.strip text) r) tasks.
Proof.
  intros Hreq Hnone Hsent Hrange.
  apply new_request_inr in Hreq as (_ & _ & ->). cbn [Api.request_text] in *.
  destruct (analyze_text_fallback_inr content_analyzer clock (Str.strip text)
              context user_preferences compound Hnone Hsent Hrange)
    as (r & Hr & _).
  unfold Api.analyze_content.
  cbn [Api.request_text Api.request_context Api.request_user_preferences].
  rewrite Hr. cbv zeta. eexists _, _. split; [reflexivity|].
  apply analyze_text_inr in Hr. cbv zeta in Hr.
  destruct Hr as (_ & _ & _ & _ & _ & _ & _ & _ & Htext).
  split; [exact Htext|].
  destruct (Py.ltb 0.7 (toxicity_score r)); rewrite ?in_app_iff;
    cbn [In]; auto.
Qed.

(** X26. The endpoint answers with status 500 exactly when the analysis
    fails, that is when the sentiment answer lacks the compound entry,
    the compound is outside [-1, 1], or the fused score is negative;
    it raises nothing else. *)
Theorem analyze_content_error_iff
    (content_analyzer : Analyzer) (clock : Clock)
    (request : Api.ContentAnalysisRequest)
    (tasks0 : list Api.BackgroundTask) (e : Api.HTTPException) :
  let cleaned_text := _preprocess_text (Api.request_text request) in
  let sent := _analyze_sentiment content_analyzer cleaned_text in
  let combined_score :=
    _combine_analysis_scores (_analyze_toxicity content_analyzer cleaned_text)
                             sent (_analyze_patterns cleaned_text) in
  Api.analyze_content content_analyzer clock request tasks0 = inl e
  <->
  Api.status_code e = 500%nat
  /\ Api.detail e
     = "Oops! Something went wrong while analyzing the content. Please try again."%string
  /\ (sent !! "compound" = None
      \/ exists c, sent !! "compound" = Some c
                   /\ ~ (-1 <= c <= 1 /\ 0 <= combined_score)).
Proof.
  cbv zeta.
  pose proof (analyze_text_cases content_analyzer clock
                (Api.request_text request) (Api.request_context request)
                (Api.request_user_preferences request)) as H.
  cbv zeta in H. destruct H as (Hk & Hr & Hv).
  unfold Api.analyze_content.
  destruct (analyze_text _ _ _ _ _) as [[|]|r] eqn:E.
  - split.
    + intros [= <-]. cbn. repeat split. left. apply Hk. reflexivity.
    + intros (H1 & H2 & _). destruct e as [sc d]. cbn in *. subst. reflexivity.
  - split.
    + intros [= <-]. cbn. repeat split. right. apply Hv. reflexivity.
    + intros (H1 & H2 & _). destruct e as [sc d]. cbn in *. subst. reflexivity.
  - cbv zeta. split; [discriminate|].
    intros (_ & _ & [Hn|Hc]).
    + apply Hk in Hn. discriminate Hn.
    + apply Hv in Hc. discriminate Hc.
Qed.

(** ** Instances of the properties above *)

Lemma fallback_analysis_returns_witness :
  exists r,
    analyze_text (Sample.fallback 0.0) Sample.clock1 Sample.kill_or_else
                 None None = inr r
    /\ 0 <= toxicity_score r <= 1
    /\ sentiment_score r = 0.0.
Proof.
  apply (fallback_analysis_returns (Sample.fallback 0.0) Sample.clock1
           Sample.kill_or_else None None 0.0).
  - reflexivity.
  - reflexivity.
  - by_computation.
Defined.

Lemma classifier_failure_degrades_to_fallback_witness :
  analyze_text Case.failing Sample.clock1 Sample.kill_or_else None None
  = analyze_text (Sample.fallback 0.0) Sample.clock1 Sample.kill_or_else
                 None None.
Proof.
  apply (classifier_failure_degrades_to_fallback
           Case.failing (fun _ => None) Sample.clock1 Sample.kill_or_else
           None None).
  - reflexivity.
  - left. reflexivity.
Defined.

Lemma support_resources_follow_category_witness :
  support_resources Case.kill_or_else_response = Some support_resources_list
  <-> category Case.kill_or_else_response = THREAT
      \/ category Case.kill_or_else_response = CYBERBULLYING
      \/ category Case.kill_or_else_response = HATE_SPEECH.
Proof.
  apply (support_resources_follow_category
           (Sample.fallback 0.0) Sample.clock1 Sample.kill_or_else None None
           Case.kill_or_else_response).
  vm_compute. reflexivity.
Defined.

Lemma response_fields_are_consistent_witness :
  severity Case.kill_or_else_response = CRITICAL
  <-> category Case.kill_or_else_response = THREAT.
Proof.
  apply (response_fields_are_consistent
           (Sample.fallback 0.0) Sample.clock1 Sample.kill_or_else None None
           Case.kill_or_else_response).
  vm_compute. reflexivity.
Defined.

Lemma severe_label_is_shadowed_by_toxic_witness :
  _analyze_toxicity Case.toxic_bert "any text" !! "severe_toxicity" = None
  /\ Py.ltb 0.5 (Py.get (_analyze_toxicity Case.toxic_bert "any text")
                        "severe_toxicity" 0.0) = false.
Proof.
  apply (severe_label_is_shadowed_by_toxic
           Case.toxic_bert (fun _ => Some [Case.toxic_bert_answer])
           "any text" Case.toxic_bert_answer []).
  - reflexivity.
  - reflexivity.
  - unfold Case.toxic_bert_answer.
    repeat constructor; vm_compute; auto; discriminate.
Defined.

Lemma accepted_request_text_witness :
  Api.request_text Case.request <> EmptyString
  /\ Str.strip (Api.request_text Case.request) = Api.request_text Case.request
  /\ (1 <= Api.len (Api.request_text Case.request) <= 10000)%Z
  /\ _preprocess_text (Api.request_text Case.request) <> EmptyString
  /\ (1 <= Api.len (_preprocess_text (Api.request_text Case.request))
      <= 10000)%Z.
Proof.
  apply (accepted_request_text "  I will kill you or else  " None None
           Case.request).
  vm_compute. reflexivity.
Defined.

Lemma analyze_content_tasks_witness :
  (0.7 < toxicity_score Case.kill_or_else_response ->
   [Api.store_analysis Sample.kill_or_else Case.kill_or_else_response;
    Api.prepare_support_resources Case.kill_or_else_response]
   = [] ++ [Api.store_analysis (Api.request_text Case.request)
                               Case.kill_or_else_response;
            Api.prepare_support_resources Case.kill_or_else_response]
   /\ support_resources Case.kill_or_else_response = Some support_resources_list
   /\ is_toxic Case.kill_or_else_response = true)
  /\ (toxicity_score Case.kill_or_else_response <= 0.7 ->
      [Api.store_analysis Sample.kill_or_else Case.kill_or_else_response;
       Api.prepare_support_resources Case.kill_or_else_response]
      = [] ++ [Api.store_analysis (Api.request_text Case.request)
                                  Case.kill_or_else_response]).
Proof.
  apply (analyze_content_tasks (Sample.fallback 0.0) Sample.clock1
           Case.request []).
  vm_compute. reflexivity.
Defined.

Lemma analyze_content_fallback_answers_witness :
  exists r tasks,
    Api.analyze_content (Sample.fallback 0.0) Sample.clock1 Case.request []
    = inr (r, tasks)
    /\ ContentAnalyzer.text r = Str.strip "  I will kill you or else  "
    /\ In (Api.store_analysis (Str.strip "  I will kill you or else  ") r) tasks.
Proof.
  apply (analyze_content_fallback_answers (Sample.fallback 0.0) Sample.clock1
           "  I will kill you or else  " None None Case.request [] 0.0).
  - vm_compute. reflexivity.
  - reflexivity.
  - reflexivity.
  - by_computation.
Defined.

(** ** The store of analysis results *)

Lemma after_calls_app (db : Db.Database) (calls : list Db.Call) (c : Db.Call) :
  Db.after_calls db (calls ++ [c])
  = snd (Db.store_analysis (Db.after_calls db calls) (fst (fst c))
                           (snd (fst c)) (snd c)).
Proof.
  unfold Db.after_calls. rewrite fold_left_app. cbn [fold_left].
  destruct c as [[clock text] result]. reflexivity.
Qed.

Lemma store_analysis_history (db : Db.Database) (clock : Db.StoreClock)
    (text : string) (result : ContentAnalysisResponse) :
  exists record,
    Db.analysis_history (snd (Db.store_analysis db clock text result))
    = Db.analysis_history db ++ [record]
    /\ Db.data record = {| Db.original_text := text;
                           Db.analysis_result := result;
                           Db.user_id := None |}
    /\ Db.id record = fst (Db.store_analysis db clock text result)
    /\ Db.connected (snd (Db.store_analysis db clock text result)) = true.
Proof.
  unfold Db.store_analysis, Db.connect. cbv zeta.
  destruct (Db.connected db) eqn:E; cbn [snd fst Db.analysis_history];
    eexists; (split; [reflexivity|]); cbn; rewrite ?E; auto.
Qed.

Lemma after_calls_history (calls : list Db.Call) (db : Db.Database) :
  map (fun r => (Db.original_text (Db.data r), Db.analysis_result (Db.data r),
                 Db.user_id (Db.data r)))
      (Db.analysis_history (Db.after_calls db calls))
  = map (fun r => (Db.original_text (Db.data r), Db.analysis_result (Db.data r),
                   Db.user_id (Db.data r)))
        (Db.analysis_history db)
    ++ map (fun c : Db.Call => (snd (fst c), snd c, None)) calls.
Proof.
  revert db. induction calls as [|[[clock text] result] calls IH]; intros db.
  - cbn. rewrite app_nil_r. reflexivity.
  - unfold Db.after_calls in *. cbn [fold_left]. rewrite IH.
    destruct (store_analysis_history db clock text result)
      as (record & -> & Hd & _).
    rewrite map_app. cbn [map]. rewrite Hd. cbn.
    rewrite <- app_assoc. reflexivity.
Qed.

Lemma map_drop {A B : Type} (f : A -> B) (n : nat) (l : list A) :
  map f (drop n l) = drop n (map f l).
Proof.
  revert n. induction l as [|x l IH]; intros [|n]; cbn; auto.
Qed.

Lemma map_last_slice {A B : Type} (f : A -> B) (limit : Z) (l : list A) :
  map f (Db.last_slice limit l) = Db.last_slice limit (map f l).
Proof.
  unfold Db.last_slice. rewrite length_map.
  destruct (0 <? limit)%Z; apply map_drop.
Qed.

Lemma convert_other_user (u : string) (l : list Db.InMemoryRecord)
    (acc : list Db.AnalysisHistory) :
  Forall (fun r => Db.user_id (Db.data r) = None) l ->
  fold_left (Db.convert (Some u)) l acc = acc.
Proof.
  revert acc. induction l as [|r l IH]; intros acc H; [reflexivity|].
  apply Forall_cons in H as [Hr H]. cbn [fold_left].
  unfold Db.convert at 2, Db.user_matches. rewrite Hr. apply IH. exact H.
Qed.

Lemma convert_any_user (l : list Db.InMemoryRecord)
    (acc : list Db.AnalysisHistory) :
  Forall (fun r => validate (Db.analysis_result (Db.data r)) = true) l ->
  map (fun h => (Db.history_original_text h, Db.history_analysis_result h))
      (fold_left (Db.convert None) l acc)
  = map (fun h => (Db.history_original_text h, Db.history_analysis_result h)) acc
    ++ map (fun r => (Db.original_text (Db.data r),
                      Db.analysis_result (Db.data r))) l.
Proof.
  revert acc. induction l as [|r l IH]; intros acc H.
  - cbn. rewrite app_nil_r. reflexivity.
  - apply Forall_cons in H as [Hr H]. cbn [fold_left]. rewrite (IH _ H).
    unfold Db.convert, Db.user_matches, new_ContentAnalysisResponse.
    rewrite Hr, map_app. cbn. rewrite <- app_assoc. reflexivity.
Qed.

Lemma map_fst_triple {A B C : Type} (l : list (A * B * C)) :
  map fst l = map (fun x => (fst (fst x), snd (fst x))) l.
Proof. apply map_ext. intros [[a b] c]. reflexivity. Qed.

(** X27. Nothing stored through [store_analysis] is ever returned for a
    named user: the records carry no user id, so the history asked
    for with a user id is empty whatever was stored and whatever the
    limit. *)
Theorem history_of_named_user_is_empty
    (calls : list Db.Call) (user : string) (limit : Z) :
  fst (Db.get_analysis_history (Db.after_calls Db.init calls) (Some user) limit)
  = [].
Proof.
  unfold Db.get_analysis_history. cbv zeta. cbn [fst].
  apply convert_other_user.
  assert (H : Forall (fun r => Db.user_id (Db.data r) = None)
                     (Db.analysis_history (Db.after_calls Db.init calls))).
  { pose proof (after_calls_history calls Db.init) as E. cbn [Db.init
      Db.analysis_history map app] in E.
    apply Forall_forall. intros r Hr. apply list_elem_of_In in Hr.
    apply (in_map (fun r => (Db.original_text (Db.data r),
                             Db.analysis_result (Db.data r),
                             Db.user_id (Db.data r)))) in Hr.
    rewrite E in Hr. apply in_map_iff in Hr as (c & Hc & _).
    injection Hc as _ _ Hc. symmetry. exact Hc. }
  assert (Hd : forall db, Db.analysis_history
                 (if Db.connected db then db else Db.connect db)
               = Db.analysis_history db).
  { intros db. unfold Db.connect. destruct (Db.connected db); reflexivity. }
  rewrite Hd. unfold Db.last_slice.
  destruct (0 <? limit)%Z; apply Forall_drop; exact H.
Qed.

(** X28. Without a user id, the history returns the last [limit] stored
    analyses in the order in which they were stored, given that the
    stored responses came from the response constructor; with
    [limit = 0] the slice [[-0:]] is the whole list, so everything is
    returned. *)
Theorem history_returns_last_stored (calls : list Db.Call) (limit : Z) :
  Forall (fun c : Db.Call => validate (snd c) = true) calls ->
  let results :=
    fst (Db.get_analysis_history (Db.after_calls Db.init calls) None limit) in
  map (fun h => (Db.history_original_text h, Db.history_analysis_result h))
      results
  = Db.last_slice limit (map (fun c : Db.Call => (snd (fst c), snd c)) calls)
  /\ (limit = 0%Z -> length results = length calls)
  /\ ((0 < limit)%Z ->
      length results = Nat.min (Z.to_nat limit) (length calls)).
Proof.
  intros Hvalid results.
  assert (Hhist : map (fun r => (Db.original_text (Db.data r),
                                 Db.analysis_result (Db.data r)))
                      (Db.analysis_history (Db.after_calls Db.init calls))
                  = map (fun c : Db.Call => (snd (fst c), snd c)) calls).
  { pose proof (after_calls_history calls Db.init) as E.
    cbn [Db.init Db.analysis_history map app] in E.
    apply (f_equal (map fst)) in E. rewrite !map_map in E. exact E. }
  assert (Hd : forall db, Db.analysis_history
                 (if Db.connected db then db else Db.connect db)
               = Db.analysis_history db).
  { intros db. unfold Db.connect. destruct (Db.connected db); reflexivity. }
  assert (E : map (fun h => (Db.history_original_text h,
                             Db.history_analysis_result h)) results
              = Db.last_slice limit
                  (map (fun c : Db.Call => (snd (fst c), snd c)) calls)).
  { unfold results, Db.get_analysis_history. cbv zeta. cbn [fst].
    rewrite Hd, convert_any_user.
    - cbn [map app]. rewrite map_last_slice, Hhist. reflexivity.
    - assert (H : Forall (fun r => validate (Db.analysis_result (Db.data r)) = true)
                         (Db.analysis_history (Db.after_calls Db.init calls))).
      { apply Forall_forall. intros r Hr. apply list_elem_of_In in Hr.
        apply (in_map (fun r => (Db.original_text (Db.data r),
                                 Db.analysis_result (Db.data r)))) in Hr.
        rewrite Hhist in Hr. apply in_map_iff in Hr as (c & Hc & Hin).
        injection Hc as _ Hc. rewrite <- Hc.
        apply list_elem_of_In in Hin.
        exact (proj1 (Forall_forall _ _) Hvalid c Hin). }
      unfold Db.last_slice. destruct (0 <? limit)%Z; apply Forall_drop; exact H. }
  split; [exact E|].
  apply (f_equal (@length _)) in E. rewrite length_map in E. rewrite E.
  unfold Db.last_slice.
  split.
  - intros ->. change (0 <? 0)%Z with false. change (Z.to_nat (- 0)) with 0%nat.
    rewrite drop_0, length_map. reflexivity.
  - intros Hpos. apply Z.ltb_lt in Hpos as Hb. rewrite Hb.
    rewrite length_drop, !length_map. lia.
Qed.

(** Statistics *)

Lemma ToxicityCategory_eqb_eq (a b : ToxicityCategory) :
  ToxicityCategory_eqb a b = true <-> a = b.
Proof. destruct a, b; cbn; split; intros H; try discriminate; reflexivity. Qed.

Lemma count_category_sum (c : ToxicityCategory)
    (counts : list (ToxicityCategory * nat)) :
  list_sum (map snd (Db.count_category c counts))
  = S (list_sum (map snd counts)).
Proof.
  induction counts as [|[k n] rest IH]; cbn [Db.count_category]; [reflexivity|].
  destruct (ToxicityCategory_eqb k c); unfold list_sum in *; cbn [map snd fold_right] in *; lia.
Qed.

Lemma count_category_keys (c : ToxicityCategory)
    (counts : list (ToxicityCategory * nat)) :
  (forall k, In k (map fst (Db.count_category c counts)) ->
             k = c \/ In k (map fst counts))
  /\ (NoDup (map fst counts) -> NoDup (map fst (Db.count_category c counts))).
Proof.
  induction counts as [|[k n] rest [IH1 IH2]]; cbn [Db.count_category].
  - split; [cbn; intros k [<-|[]]; left; reflexivity|]. intros _. cbn.
    apply NoDup_cons.
    split; [apply not_elem_of_nil|apply NoDup_nil_2].
  - destruct (ToxicityCategory_eqb k c) eqn:E.
    + cbn [map fst]. split; [intros k' H; right; exact H|auto].
    + cbn [map fst]. split.
      * intros k' [->|H]; [right; left; reflexivity|].
        destruct (IH1 k' H); [left|right; right]; assumption.
      * intros Hnd. apply NoDup_cons in Hnd as [Hk Hnd].
        apply NoDup_cons. split; [|apply IH2; exact Hnd].
        rewrite list_elem_of_In. intros Hin.
        destruct (IH1 k Hin) as [->|Hin'].
        -- assert (ToxicityCategory_eqb c c = true)
             by (apply ToxicityCategory_eqb_eq; reflexivity). congruence.
        -- apply Hk. apply list_elem_of_In. exact Hin'.
Qed.

Lemma of_int_S (n : nat) : Py.of_int (S n) == Py.of_int n + 1.
Proof.
  unfold Py.of_int. rewrite Nat2Z.inj_succ, <- Z.add_1_r, inject_Z_plus.
  reflexivity.
Qed.

Lemma of_int_le (n m : nat) : (n <= m)%nat -> Py.of_int n <= Py.of_int m.
Proof. intros H. unfold Py.of_int, Qle. simpl. lia. Qed.

Lemma fold_plus_bounds (xs : list Q) (a : Q) :
  Forall (fun x => 0 <= x <= 1) xs ->
  a <= fold_left Qplus xs a <= a + Py.of_int (length xs).
Proof.
  revert a. induction xs as [|x xs IH]; intros a H.
  - cbn [fold_left length]. unfold Py.of_int.
    change (inject_Z (Z.of_nat 0)) with 0. lra.
  - apply Forall_cons in H as [Hx H]. cbn [fold_left length].
    specialize (IH (a + x) H). rewrite of_int_S. lra.
Qed.

Lemma div_in_unit (a b : Q) : 0 <= a <= b -> 0 < b -> 0 <= a / b <= 1.
Proof.
  intros [Ha Hab] Hb. split.
  - apply Qle_shift_div_l; [exact Hb|lra].
  - apply Qle_shift_div_r; [exact Hb|lra].
Qed.

Lemma tally_invariant (l : list Db.InMemoryRecord)
    (tc : nat) (sc : list Q) (cc : list (ToxicityCategory * nat)) :
  exists tc' sc' cc',
    fold_left Db.tally l (tc, sc, cc) = (tc', sc', cc')
    /\ (tc <= tc' <= tc + length l)%nat
    /\ sc' = sc ++ map (fun r => toxicity_score (Db.analysis_result (Db.data r))) l
    /\ list_sum (map snd cc') = (list_sum (map snd cc) + length l)%nat
    /\ (NoDup (map fst cc) -> NoDup (map fst cc')).
Proof.
  revert tc sc cc. induction l as [|r l IH]; intros tc sc cc.
  - exists tc, sc, cc. cbn. rewrite app_nil_r. repeat split; auto; lia.
  - cbn [fold_left]. unfold Db.tally at 2.
    match goal with |- context [fold_left Db.tally l (?a, ?b, ?c)] =>
      destruct (IH a b c) as (tc' & sc' & cc' & E & Ht & Hs & Hc & Hn) end.
    exists tc', sc', cc'. split; [exact E|].
    rewrite count_category_sum in Hc. cbn [length map].
    split; [destruct (is_toxic _); lia|].
    split; [rewrite Hs, <- app_assoc; reflexivity|].
    split; [lia|].
    intros Hnd. apply Hn. apply count_category_keys. exact Hnd.
Qed.

(** X29. The statistics over the stored analyses: the total is the number
    of records, the toxic rate is a percentage in [0, 100], the
    category breakdown has one entry per category and its counts add
    up to the total, and the average score lies in [0, 1] when the
    stored scores do. *)
Theorem toxicity_stats_are_consistent (db : Db.Database) :
  let stats := fst (Db.get_toxicity_stats db) in
  Db.total_analyses stats = length (Db.analysis_history db)
  /\ 0 <= Db.toxic_content_rate stats <= 100
  /\ list_sum (map snd (Db.category_breakdown stats))
     = length (Db.analysis_history db)
  /\ NoDup (map fst (Db.category_breakdown stats))
  /\ (Forall (fun r => 0 <= toxicity_score (Db.analysis_result (Db.data r)) <= 1)
             (Db.analysis_history db) ->
      0 <= Db.average_toxicity_score stats <= 1).
Proof.
  cbv zeta. unfold Db.get_toxicity_stats. cbv zeta.
  assert (Hd : Db.analysis_history
                 (if Db.connected db then db else Db.connect db)
               = Db.analysis_history db).
  { unfold Db.connect. destruct (Db.connected db); reflexivity. }
  rewrite Hd. destruct (Db.analysis_history db) as [|r l] eqn:El.
  - cbn. repeat split; try lra; try apply NoDup_nil_2.
  - rewrite <- El. assert (Hlen : (0 < length (Db.analysis_history db))%nat)
      by (rewrite El; cbn; lia).
    assert ((length (Db.analysis_history db) =? 0)%nat = false) as ->
      by (apply Nat.eqb_neq; lia).
    destruct (tally_invariant (Db.analysis_history db) 0 [] [])
      as (tc' & sc' & cc' & -> & Ht & Hs & Hc & Hn).
    cbn [fst Db.total_analyses Db.toxic_content_rate Db.category_breakdown
         Db.average_toxicity_score].
    assert (Hpos : 0 < Py.of_int (length (Db.analysis_history db))).
    { pose proof (of_int_le 1 _ Hlen) as H. unfold Py.of_int in H at 1.
      change (inject_Z (Z.of_nat 1)) with 1 in H. lra. }
    split; [reflexivity|].
    split.
    { pose proof (div_in_unit (Py.of_int tc')
                    (Py.of_int (length (Db.analysis_history db)))) as H.
      destruct H as [H1 H2]; [|exact Hpos|lra].
      split; [apply of_int_nonneg|apply of_int_le; lia]. }
    split; [exact Hc|].
    split; [apply Hn; apply NoDup_nil_2|].
    intros Hall. cbn [app] in Hs. subst sc'.
    destruct (map _ (Db.analysis_history db)) as [|x xs] eqn:Em.
    { lra. }
    rewrite <- Em.
    assert (Hf : Forall (fun x => 0 <= x <= 1)
                   (map (fun r => toxicity_score (Db.analysis_result (Db.data r)))
                        (Db.analysis_history db))).
    { clear -Hall. induction Hall; cbn; constructor; auto. }
    pose proof (fold_plus_bounds _ 0 Hf) as Hb. rewrite length_map in *.
    apply div_in_unit; [|exact Hpos]. unfold Db.sum. lra.
Qed.

Lemma history_returns_last_stored_witness :
  map (fun h => (Db.history_original_text h, Db.history_analysis_result h))
      (fst (Db.get_analysis_history (Db.after_calls Db.init Case.calls) None 1))
  = [ ("second text"%string, Case.kill_or_else_response) ].
Proof.
  pose proof (history_returns_last_stored Case.calls 1) as H.
  cbv zeta in H. destruct H as [H _].
  - repeat constructor; vm_compute; reflexivity.
  - exact H.
Defined.
